(** * HVD, a hardware video decoder shim over FFmpeg: model of [hvd.c]

    [hvd.c] owns no algorithm of the decoding itself.  It configures
    libavcodec / libavutil, forwards packets and fetches frames.  The
    model below keeps that shape: every call that leaves [hvd.c] is an
    oracle of an abstract [Framework] acting on an abstract world [W], and
    every such call is recorded, with its arguments and its answer, in a
    trace of [event]s.  The decoder may call back into [hvd.c] while one of
    its calls runs: those oracles answer with a tree of [get_format]
    requests, and the runs of the callback are recorded in the event of
    the call.  What [hvd.c] computes by itself (the struct [hvd],
    the pixel-format table, the [get_format] callback, the translation of
    the error codes) is written out as plain functions. *)

From Stdlib Require Import ZArith List String Bool Lia.
Import ListNotations.
Open Scope string_scope.
Open Scope list_scope.
Open Scope Z_scope.

(** ** C values *)

(** Pointers are addresses; [NULL] is address 0. *)
Definition ptr := Z.
Definition NULL : ptr := 0.
Definition is_null (p : ptr) : bool := p =? NULL.

(** ** The part of FFmpeg's headers that [hvd.c] mentions *)

(** [enum AVHWDeviceType].  The members named in [hvd.c] are constructors;
    every other member of the enumeration (CUDA, QSV, DRM, ...) is
    [AV_HWDEVICE_TYPE_other] with its numeric tag. *)
Inductive AVHWDeviceType : Type :=
| AV_HWDEVICE_TYPE_NONE
| AV_HWDEVICE_TYPE_VAAPI
| AV_HWDEVICE_TYPE_DXVA2
| AV_HWDEVICE_TYPE_D3D11VA
| AV_HWDEVICE_TYPE_VDPAU
| AV_HWDEVICE_TYPE_VIDEOTOOLBOX
| AV_HWDEVICE_TYPE_other (tag : Z).

Definition is_type_none (t : AVHWDeviceType) : bool :=
  match t with AV_HWDEVICE_TYPE_NONE => true | _ => false end.

(** [enum AVPixelFormat] is kept as the C integer: [AVFrame.format] is an
    [int] and [hvd_get_hw_pix_format] compares list members with the
    literal [-1], which is [AV_PIX_FMT_NONE]. *)
Definition AVPixelFormat := Z.
Definition AV_PIX_FMT_NONE : AVPixelFormat := -1.

Module AVPacket.
(** [AVPacket]: [hvd.c] reads and writes [data] and [size] only; the
    remaining members (pts, dts, flags, ...) are carried as raw words
    and are written by [av_init_packet] alone. *)
Record t : Type := mk { data : ptr; size : Z; rest : list Z }.

Definition zero : t := {| data := NULL; size := 0; rest := [] |}.
Definition set_data (p : t) (d : ptr) : t :=
  {| data := d; size := size p; rest := rest p |}.
Definition set_size (p : t) (n : Z) : t :=
  {| data := data p; size := n; rest := rest p |}.
End AVPacket.

(** ** The declarations [hvd.c] takes from [hvd.h] *)

(** [struct hvd_config]: the three members [hvd_init] reads.  [device] may
    be a NULL string. *)
Record hvd_config : Type := {
  hardware : string;
  codec : string;
  device : option string
}.

(** [struct hvd_packet]: the two members [hvd_send_packet] reads. *)
Record hvd_packet : Type := { data : ptr; size : Z }.

(** The return codes of [hvd.h].  Only their names occur in [hvd.c], so
    their values are left open. *)
Class hvd_retval : Type := {
  HVD_OK : Z;
  HVD_AGAIN : Z;
  HVD_ERROR : Z
}.

(** ** [struct hvd] *)

Record hvd : Type := {
  hw_device_ctx : ptr;
  hw_pix_fmt : AVPixelFormat;
  decoder_ctx : ptr;
  sw_frame : ptr;
  hw_frame : ptr;
  av_packet : AVPacket.t
}.

(** [struct hvd zero_hvd = {0}] *)
Definition zero_hvd : hvd :=
  {| hw_device_ctx := NULL; hw_pix_fmt := 0; decoder_ctx := NULL;
     sw_frame := NULL; hw_frame := NULL; av_packet := AVPacket.zero |}.

Definition set_hw_device_ctx (h : hvd) (v : ptr) : hvd :=
  {| hw_device_ctx := v; hw_pix_fmt := hw_pix_fmt h;
     decoder_ctx := decoder_ctx h; sw_frame := sw_frame h;
     hw_frame := hw_frame h; av_packet := av_packet h |}.
Definition set_hw_pix_fmt (h : hvd) (v : AVPixelFormat) : hvd :=
  {| hw_device_ctx := hw_device_ctx h; hw_pix_fmt := v;
     decoder_ctx := decoder_ctx h; sw_frame := sw_frame h;
     hw_frame := hw_frame h; av_packet := av_packet h |}.
Definition set_decoder_ctx (h : hvd) (v : ptr) : hvd :=
  {| hw_device_ctx := hw_device_ctx h; hw_pix_fmt := hw_pix_fmt h;
     decoder_ctx := v; sw_frame := sw_frame h;
     hw_frame := hw_frame h; av_packet := av_packet h |}.
Definition set_sw_frame (h : hvd) (v : ptr) : hvd :=
  {| hw_device_ctx := hw_device_ctx h; hw_pix_fmt := hw_pix_fmt h;
     decoder_ctx := decoder_ctx h; sw_frame := v;
     hw_frame := hw_frame h; av_packet := av_packet h |}.
Definition set_hw_frame (h : hvd) (v : ptr) : hvd :=
  {| hw_device_ctx := hw_device_ctx h; hw_pix_fmt := hw_pix_fmt h;
     decoder_ctx := decoder_ctx h; sw_frame := sw_frame h;
     hw_frame := v; av_packet := av_packet h |}.
Definition set_av_packet (h : hvd) (v : AVPacket.t) : hvd :=
  {| hw_device_ctx := hw_device_ctx h; hw_pix_fmt := hw_pix_fmt h;
     decoder_ctx := decoder_ctx h; sw_frame := sw_frame h;
     hw_frame := hw_frame h; av_packet := v |}.

(** ** Calls that leave [hvd.c] *)

(** An argument of [fprintf] after the format string. *)
Inductive fprintf_arg : Type :=
| arg_s (s : string)
| arg_s_opt (s : option string)
| arg_d (n : Z)
| arg_codec_name (decoder : ptr).

(** One run of the [get_format] callback inside a call of the decoder:
    the formats the decoder offered (the array it passes ends with
    [AV_PIX_FMT_NONE] after them), the callback's answer, and the format
    strings the callback wrote to [stderr]. *)
Record get_format_call : Type := {
  gf_offered : list AVPixelFormat;
  gf_answer : option AVPixelFormat;
  gf_stderr : list string
}.

(** One constructor per external call, with the arguments [hvd.c] passes
    and the answer it gets back; for the calls of the decoder also the
    runs of the callback that happened inside the call. *)
Inductive event : Type :=
| E_malloc (p : ptr)
| E_fprintf_stderr (fmt : string) (args : list fprintf_arg)
| E_avcodec_register_all
| E_av_log_set_level (level : Z)
| E_av_hwdevice_find_type_by_name (name : string) (ty : AVHWDeviceType)
| E_avcodec_find_decoder_by_name (name : string) (decoder : ptr)
| E_avcodec_alloc_context3 (decoder ctx : ptr)
| E_store_opaque (ctx h : ptr)
| E_store_get_format (ctx : ptr)
| E_av_hwdevice_ctx_create (ty : AVHWDeviceType) (dev : option string)
    (err : Z) (device_ctx : ptr)
| E_av_buffer_ref (buf ref : ptr)
| E_store_hw_device_ctx (ctx ref : ptr)
| E_avcodec_open2 (ctx decoder : ptr) (callbacks : list get_format_call)
    (err : Z)
| E_av_init_packet (pkt pkt' : AVPacket.t)
| E_av_frame_free (frame : ptr)
| E_avcodec_free_context (ctx : ptr)
| E_av_buffer_unref (buf : ptr)
| E_avcodec_send_packet (ctx : ptr) (pkt : AVPacket.t)
    (callbacks : list get_format_call) (err : Z)
| E_av_frame_alloc (frame : ptr)
| E_avcodec_receive_frame (ctx frame : ptr)
    (callbacks : list get_format_call) (ret : Z)
| E_avcodec_flush_buffers (ctx : ptr)
| E_load_frame_format (frame : ptr) (format : Z)
| E_av_hwframe_transfer_data (dst src : ptr) (flags : Z) (ret : Z).

(** The format strings of the [fprintf] calls of a trace, in order. *)
Definition fprintf_formats (tr : list event) : list string :=
  flat_map (fun e => match e with
                     | E_fprintf_stderr fmt _ => [fmt]
                     | _ => []
                     end) tr.

(** What a call of the decoder does before it returns: it returns [a] and
    leaves the world [w], or it calls [ctx->get_format] with the formats
    [fmts] and goes on from the callback's answer. *)
Inductive reentrant (W A : Type) : Type :=
| fw_return (a : A) (w : W)
| fw_get_format (fmts : list AVPixelFormat)
    (k : option AVPixelFormat -> reentrant W A).
Arguments fw_return {W A} a w.
Arguments fw_get_format {W A} fmts k.

(** Running such a call against the callback: the answer of the call, the
    runs of the callback in order, the world afterwards. *)
Fixpoint reenter {W A : Type}
    (get_format : list AVPixelFormat -> get_format_call)
    (r : reentrant W A) : A * list get_format_call * W :=
  match r with
  | fw_return a w => (a, [], w)
  | fw_get_format fmts k =>
      let c := get_format fmts in
      let r' := reenter get_format (k (gf_answer c)) in
      (fst (fst r'), c :: snd (fst r'), snd r')
  end.

(** The constants [hvd.c] takes from FFmpeg's headers.  Their values
    depend on the FFmpeg version and on the platform's [errno.h]. *)
Class libav_headers : Type := {
  AVERROR_EAGAIN : Z;
  AVERROR_EOF : Z;
  AV_LOG_VERBOSE : Z;
  AV_PIX_FMT_VAAPI : AVPixelFormat;
  AV_PIX_FMT_DXVA2_VLD : AVPixelFormat;
  AV_PIX_FMT_D3D11 : AVPixelFormat;
  AV_PIX_FMT_VDPAU : AVPixelFormat;
  AV_PIX_FMT_VIDEOTOOLBOX : AVPixelFormat
}.

(** The external side at run time: the C runtime's [malloc] and FFmpeg's
    functions, each as a function of the world it acts on.  The three
    [fw_store_*] oracles are the assignments to members of the
    [AVCodecContext], [fw_load_frame_format] is the read of
    [AVFrame.format]; both objects belong to FFmpeg.  [avcodec_open2],
    [avcodec_send_packet] and [avcodec_receive_frame] may call the
    [get_format] callback stored in the context, any number of times,
    before they return.  An oracle sees the
    values [hvd.c] passes and answers with the values [hvd.c] gets back:
    [avcodec_send_packet] takes its packet as [const], and FFmpeg hands
    [ctx->opaque] to the callbacks only, so no call writes [struct hvd]
    behind the back of [hvd.c]. *)
Class Framework (W : Type) : Type := {
  fw_malloc_hvd : W -> ptr * W;
  fw_avcodec_register_all : W -> W;
  fw_av_log_set_level : Z -> W -> W;
  fw_av_hwdevice_find_type_by_name : string -> W -> AVHWDeviceType * W;
  fw_avcodec_find_decoder_by_name : string -> W -> ptr * W;
  fw_avcodec_alloc_context3 : ptr -> W -> ptr * W;
  fw_store_opaque : ptr -> ptr -> W -> W;
  fw_store_get_format : ptr -> W -> W;
  fw_av_hwdevice_ctx_create :
    AVHWDeviceType -> option string -> W -> (Z * ptr) * W;
  fw_av_buffer_ref : ptr -> W -> ptr * W;
  fw_store_hw_device_ctx : ptr -> ptr -> W -> W;
  fw_avcodec_open2 : ptr -> ptr -> W -> reentrant W Z;
  fw_av_init_packet : AVPacket.t -> W -> AVPacket.t * W;
  fw_av_frame_free : ptr -> W -> W;
  fw_avcodec_free_context : ptr -> W -> W;
  fw_av_buffer_unref : ptr -> W -> W;
  fw_avcodec_send_packet : ptr -> AVPacket.t -> W -> reentrant W Z;
  fw_av_frame_alloc : W -> ptr * W;
  fw_avcodec_receive_frame : ptr -> ptr -> W -> reentrant W Z;
  fw_avcodec_flush_buffers : ptr -> W -> W;
  fw_load_frame_format : ptr -> W -> Z;
  fw_av_hwframe_transfer_data : ptr -> ptr -> Z -> W -> Z * W
}.

(** ** The monad of [hvd.c]: world passing with a trace of the calls *)

Definition M (W A : Type) : Type := W -> A * list event * W.

Definition ret {W A : Type} (a : A) : M W A := fun w => (a, [], w).

Definition bind {W A B : Type} (m : M W A) (k : A -> M W B) : M W B :=
  fun w =>
    let '(a, t1, w1) := m w in
    let '(b, t2, w2) := k a w1 in
    (b, t1 ++ t2, w2).

(** A call with an answer, and a call without one. *)
Definition call {W A : Type} (f : W -> A * W) (e : A -> event) : M W A :=
  fun w => let r := f w in (fst r, [e (fst r)], snd r).

Definition call_ {W : Type} (f : W -> W) (e : event) : M W unit :=
  fun w => (tt, [e], f w).

(** The callback [get_format] as the decoder sees it in the world [w]: run
    on the offered formats followed by the terminator. *)
Definition observe_get_format {W : Type}
    (get_format : list AVPixelFormat -> M W (option AVPixelFormat))
    (w : W) (fmts : list AVPixelFormat) : get_format_call :=
  let r := get_format (fmts ++ [AV_PIX_FMT_NONE]) w in
  {| gf_offered := fmts;
     gf_answer := fst (fst r);
     gf_stderr := fprintf_formats (snd (fst r)) |}.

(** A call of the decoder, which may run the callback [get_format] that
    [hvd_init] stored in the context. *)
Definition call_reentrant {W A : Type}
    (get_format : list AVPixelFormat -> M W (option AVPixelFormat))
    (f : W -> reentrant W A) (e : list get_format_call -> A -> event)
  : M W A :=
  fun w =>
    let r := reenter (observe_get_format get_format w) (f w) in
    (fst (fst r), [e (snd (fst r)) (fst (fst r))], snd r).

Declare Scope hvd_scope.
Delimit Scope hvd_scope with hvd.
Notation "x <- m ;; k" := (bind m (fun x => k))
  (at level 61, m at next level, right associativity) : hvd_scope.
Notation "m ;; k" := (bind m (fun _ => k))
  (at level 61, right associativity) : hvd_scope.
Open Scope hvd_scope.

Section Externals.
Context {W : Type} {F : Framework W}.

Definition malloc_hvd : M W ptr := call fw_malloc_hvd E_malloc.

(** [stderr] is not part of the world of the framework. *)
Definition fprintf_stderr (fmt : string) (args : list fprintf_arg)
  : M W unit :=
  call_ (fun w => w) (E_fprintf_stderr fmt args).

Definition avcodec_register_all : M W unit :=
  call_ fw_avcodec_register_all E_avcodec_register_all.

Definition av_log_set_level (level : Z) : M W unit :=
  call_ (fw_av_log_set_level level) (E_av_log_set_level level).

Definition av_hwdevice_find_type_by_name (name : string)
  : M W AVHWDeviceType :=
  call (fw_av_hwdevice_find_type_by_name name)
       (E_av_hwdevice_find_type_by_name name).

Definition avcodec_find_decoder_by_name (name : string) : M W ptr :=
  call (fw_avcodec_find_decoder_by_name name)
       (E_avcodec_find_decoder_by_name name).

Definition avcodec_alloc_context3 (decoder : ptr) : M W ptr :=
  call (fw_avcodec_alloc_context3 decoder)
       (E_avcodec_alloc_context3 decoder).

(** [ctx->opaque = h] *)
Definition store_opaque (ctx h : ptr) : M W unit :=
  call_ (fw_store_opaque ctx h) (E_store_opaque ctx h).

(** [ctx->get_format = hvd_get_hw_pix_format] *)
Definition store_get_format (ctx : ptr) : M W unit :=
  call_ (fw_store_get_format ctx) (E_store_get_format ctx).

(** [av_hwdevice_ctx_create(&p, ty, dev, NULL, 0)]: the error code and
    the content of [p] afterwards. *)
Definition av_hwdevice_ctx_create (ty : AVHWDeviceType)
    (dev : option string) : M W (Z * ptr) :=
  call (fw_av_hwdevice_ctx_create ty dev)
       (fun r => E_av_hwdevice_ctx_create ty dev (fst r) (snd r)).

Definition av_buffer_ref (buf : ptr) : M W ptr :=
  call (fw_av_buffer_ref buf) (E_av_buffer_ref buf).

(** [ctx->hw_device_ctx = ref] *)
Definition store_hw_device_ctx (ctx ref : ptr) : M W unit :=
  call_ (fw_store_hw_device_ctx ctx ref) (E_store_hw_device_ctx ctx ref).

(** [avcodec_open2], [avcodec_send_packet] and [avcodec_receive_frame]
    take, besides their C arguments, the function that [ctx->get_format]
    points to, applied to the struct that [ctx->opaque] points to. *)
Definition avcodec_open2
    (get_format : list AVPixelFormat -> M W (option AVPixelFormat))
    (ctx decoder : ptr) : M W Z :=
  call_reentrant get_format (fw_avcodec_open2 ctx decoder)
                 (E_avcodec_open2 ctx decoder).

(** [av_init_packet(&pkt)]: the content of [pkt] afterwards. *)
Definition av_init_packet (pkt : AVPacket.t) : M W AVPacket.t :=
  call (fw_av_init_packet pkt) (E_av_init_packet pkt).

(** [av_frame_free(&p)], [avcodec_free_context(&p)] and
    [av_buffer_unref(&p)] release the object and set [p] to NULL: the
    result is the content of [p] afterwards. *)
Definition av_frame_free (frame : ptr) : M W ptr :=
  call_ (fw_av_frame_free frame) (E_av_frame_free frame) ;; ret NULL.

Definition avcodec_free_context (ctx : ptr) : M W ptr :=
  call_ (fw_avcodec_free_context ctx) (E_avcodec_free_context ctx) ;;
  ret NULL.

Definition av_buffer_unref (buf : ptr) : M W ptr :=
  call_ (fw_av_buffer_unref buf) (E_av_buffer_unref buf) ;; ret NULL.

Definition avcodec_send_packet
    (get_format : list AVPixelFormat -> M W (option AVPixelFormat))
    (ctx : ptr) (pkt : AVPacket.t) : M W Z :=
  call_reentrant get_format (fw_avcodec_send_packet ctx pkt)
                 (E_avcodec_send_packet ctx pkt).

Definition av_frame_alloc : M W ptr :=
  call fw_av_frame_alloc E_av_frame_alloc.

Definition avcodec_receive_frame
    (get_format : list AVPixelFormat -> M W (option AVPixelFormat))
    (ctx frame : ptr) : M W Z :=
  call_reentrant get_format (fw_avcodec_receive_frame ctx frame)
                 (E_avcodec_receive_frame ctx frame).

Definition avcodec_flush_buffers (ctx : ptr) : M W unit :=
  call_ (fw_avcodec_flush_buffers ctx) (E_avcodec_flush_buffers ctx).

(** [frame->format] *)
Definition load_frame_format (frame : ptr) : M W Z :=
  call (fun w => (fw_load_frame_format frame w, w))
       (E_load_frame_format frame).

Definition av_hwframe_transfer_data (dst src : ptr) (flags : Z) : M W Z :=
  call (fw_av_hwframe_transfer_data dst src flags)
       (E_av_hwframe_transfer_data dst src flags).
End Externals.

(** ** [hvd.c] *)

Section Hvd.
Context {W : Type} {F : Framework W} {L : libav_headers} {R : hvd_retval}.

(** [hvd_find_pixel_fmt_by_hw_type]: the [switch] over the device type. *)
Definition hvd_find_pixel_fmt_by_hw_type (type : AVHWDeviceType)
  : AVPixelFormat :=
  match type with
  | AV_HWDEVICE_TYPE_VAAPI => AV_PIX_FMT_VAAPI
  | AV_HWDEVICE_TYPE_DXVA2 => AV_PIX_FMT_DXVA2_VLD
  | AV_HWDEVICE_TYPE_D3D11VA => AV_PIX_FMT_D3D11
  | AV_HWDEVICE_TYPE_VDPAU => AV_PIX_FMT_VDPAU
  | AV_HWDEVICE_TYPE_VIDEOTOOLBOX => AV_PIX_FMT_VIDEOTOOLBOX
  | _ => AV_PIX_FMT_NONE
  end.

(** The [for] loop of [hvd_get_hw_pix_format] over the array that starts
    at [pix_fmts].  [None]: the loop walked off the array (no
    terminator, undefined in C).  [Some None]: it stopped at [-1].
    [Some (Some x)]: it returned the member [x]. *)
Fixpoint hvd_get_hw_pix_format_loop (h : hvd) (p : list AVPixelFormat)
  : option (option AVPixelFormat) :=
  match p with
  | [] => None
  | x :: p' =>
      if x =? -1 then Some None
      else if x =? hw_pix_fmt h then Some (Some x)
      else hvd_get_hw_pix_format_loop h p'
  end.

(** [hvd_get_hw_pix_format]; [h] is [ctx->opaque].  [None] when the array
    has no terminator. *)
Definition hvd_get_hw_pix_format (h : hvd) (pix_fmts : list AVPixelFormat)
  : M W (option AVPixelFormat) :=
  match hvd_get_hw_pix_format_loop h pix_fmts with
  | None => ret None
  | Some (Some x) => ret (Some x)
  | Some None =>
      fprintf_stderr "hvd: failed to get HW surface format.\n" [] ;;
      ret (Some AV_PIX_FMT_NONE)
  end.

(** [hvd_close]: the content of [*h] afterwards. *)
Definition hvd_close (h : hvd) : M W hvd :=
  p <- av_frame_free (sw_frame h) ;;
  let h := set_sw_frame h p in
  p <- av_frame_free (hw_frame h) ;;
  let h := set_hw_frame h p in
  p <- avcodec_free_context (decoder_ctx h) ;;
  let h := set_decoder_ctx h p in
  p <- av_buffer_unref (hw_device_ctx h) ;;
  let h := set_hw_device_ctx h p in
  ret h.

(** [None] is the NULL handle. *)
Definition hvd_close_and_return_null (h : hvd) : M W (option hvd) :=
  hvd_close h ;; ret None.

(** [hvd_init]: [Some h] is a non-NULL handle whose struct holds [h]. *)
Definition hvd_init (config : hvd_config) : M W (option hvd) :=
  hp <- malloc_hvd ;;
  if is_null hp then
    fprintf_stderr "hvd: not enough memory for hvd\n" [] ;;
    ret None
  else
  let h := zero_hvd in
  avcodec_register_all ;;
  av_log_set_level AV_LOG_VERBOSE ;;
  hardware_type <- av_hwdevice_find_type_by_name (hardware config) ;;
  if is_type_none hardware_type then
    fprintf_stderr "hvd: cannot find hardware decoder %s\n"
                   [arg_s (hardware config)] ;;
    hvd_close_and_return_null h
  else
  let h := set_hw_pix_fmt h (hvd_find_pixel_fmt_by_hw_type hardware_type) in
  if hw_pix_fmt h =? AV_PIX_FMT_NONE then
    fprintf_stderr "hvd: unable to find pixel format for %s\n"
                   [arg_s (hardware config)] ;;
    hvd_close_and_return_null h
  else
  decoder <- avcodec_find_decoder_by_name (codec config) ;;
  if is_null decoder then
    fprintf_stderr "hvd: cannot find decoder %s\n" [arg_s (codec config)] ;;
    hvd_close_and_return_null h
  else
  ctx <- avcodec_alloc_context3 decoder ;;
  let h := set_decoder_ctx h ctx in
  if is_null (decoder_ctx h) then
    fprintf_stderr "hvd: failed to alloc decoder context, no memory?\n" [] ;;
    hvd_close_and_return_null h
  else
  store_opaque (decoder_ctx h) hp ;;
  store_get_format (decoder_ctx h) ;;
  r <- av_hwdevice_ctx_create hardware_type (device config) ;;
  let err := fst r in
  let h := set_hw_device_ctx h (snd r) in
  if err <? 0 then
    fprintf_stderr "hvd: failed to create %s device.\n"
                   [arg_s (hardware config)] ;;
    hvd_close_and_return_null h
  else
  ref <- av_buffer_ref (hw_device_ctx h) ;;
  store_hw_device_ctx (decoder_ctx h) ref ;;
  if is_null ref then
    fprintf_stderr "hvd: unable to reference hw_device_ctx.\n" [] ;;
    hvd_close_and_return_null h
  else
  err <- avcodec_open2 (hvd_get_hw_pix_format h) (decoder_ctx h) decoder ;;
  if err <? 0 then
    fprintf_stderr "hvd: failed to initialize decoder context for %s\n"
                   [arg_codec_name decoder] ;;
    hvd_close_and_return_null h
  else
  pkt <- av_init_packet (av_packet h) ;;
  let h := set_av_packet h pkt in
  let h := set_av_packet h (AVPacket.set_data (av_packet h) NULL) in
  let h := set_av_packet h (AVPacket.set_size (av_packet h) 0) in
  ret (Some h).

(** [hvd_send_packet]; [packet = None] is the NULL packet.  The result is
    the returned [int] and the content of [*h] afterwards. *)
Definition hvd_send_packet (h : hvd) (packet : option hvd_packet)
  : M W (Z * hvd) :=
  let h :=
    match packet with
    | Some packet =>
        let h := set_av_packet h
                   (AVPacket.set_data (av_packet h) (data packet)) in
        set_av_packet h (AVPacket.set_size (av_packet h) (size packet))
    | None =>
        let h := set_av_packet h (AVPacket.set_data (av_packet h) NULL) in
        set_av_packet h (AVPacket.set_size (av_packet h) 0)
    end in
  err <- avcodec_send_packet (hvd_get_hw_pix_format h)
                           (decoder_ctx h) (av_packet h) ;;
  if err <? 0 then
    fprintf_stderr "hvd: send_packet error %d\n" [arg_d err] ;;
    ret (if err =? AVERROR_EAGAIN then HVD_AGAIN else HVD_ERROR, h)
  else
  ret (HVD_OK, h).

(** [hvd_receive_frame]: the returned [AVFrame*], the content of [*error]
    and the content of [*h] at the return. *)
Definition hvd_receive_frame (h : hvd) : M W (ptr * Z * hvd) :=
  let avctx := decoder_ctx h in
  let error := HVD_ERROR in
  p <- av_frame_free (hw_frame h) ;;
  let h := set_hw_frame h p in
  p <- av_frame_free (sw_frame h) ;;
  let h := set_sw_frame h p in
  let alloc_failed (h : hvd) : M W (ptr * Z * hvd) :=
    fprintf_stderr "hvd: unable to av_frame_alloc frame\n" [] ;;
    ret (NULL, error, h) in
  p <- av_frame_alloc ;;
  let h := set_hw_frame h p in
  if is_null (hw_frame h) then alloc_failed h
  else
  p <- av_frame_alloc ;;
  let h := set_sw_frame h p in
  if is_null (sw_frame h) then alloc_failed h
  else
  ret_ <- avcodec_receive_frame (hvd_get_hw_pix_format h)
                              avctx (hw_frame h) ;;
  if ret_ <? 0 then
    let error :=
      if (ret_ =? AVERROR_EAGAIN) || (ret_ =? AVERROR_EOF)
      then HVD_OK else HVD_ERROR in
    (if ret_ =? AVERROR_EOF then avcodec_flush_buffers avctx
     else ret tt) ;;
    (if error =? 0 then ret tt
     else fprintf_stderr "hvd: error while decoding %d\n" [arg_d ret_]) ;;
    ret (NULL, error, h)
  else
  format <- load_frame_format (hw_frame h) ;;
  if negb (format =? hw_pix_fmt h) then
    fprintf_stderr "hvd: frame decoded in software (not in hardware)\n" [] ;;
    ret (NULL, error, h)
  else
  r <- av_hwframe_transfer_data (sw_frame h) (hw_frame h) 0 ;;
  if r <? 0 then
    fprintf_stderr "hvd: unable to transfer data to system memory\n" [] ;;
    ret (NULL, error, h)
  else
  ret (sw_frame h, HVD_OK, h).
End Hvd.

(** ** Observing a run *)

Definition result {W A : Type} (m : M W A) (w : W) : A := fst (fst (m w)).
Definition trace {W A : Type} (m : M W A) (w : W) : list event :=
  snd (fst (m w)).
Definition world_after {W A : Type} (m : M W A) (w : W) : W := snd (m w).

(** The codes [avcodec_send_packet] reported during a run, in order. *)
Definition send_codes (tr : list event) : list Z :=
  flat_map (fun e => match e with
                     | E_avcodec_send_packet _ _ _ err => [err]
                     | _ => []
                     end) tr.

(** The packets handed to [avcodec_send_packet] during a run, in order. *)
Definition sent_packets (tr : list event) : list AVPacket.t :=
  flat_map (fun e => match e with
                     | E_avcodec_send_packet _ pkt _ _ => [pkt]
                     | _ => []
                     end) tr.

(** The codes [avcodec_receive_frame] reported during a run, in order. *)
Definition receive_codes (tr : list event) : list Z :=
  flat_map (fun e => match e with
                     | E_avcodec_receive_frame _ _ _ ret => [ret]
                     | _ => []
                     end) tr.

(** The device types listed in [hvd_find_pixel_fmt_by_hw_type]. *)
Definition listed_type (type : AVHWDeviceType) : bool :=
  match type with
  | AV_HWDEVICE_TYPE_VAAPI | AV_HWDEVICE_TYPE_DXVA2
  | AV_HWDEVICE_TYPE_D3D11VA | AV_HWDEVICE_TYPE_VDPAU
  | AV_HWDEVICE_TYPE_VIDEOTOOLBOX => true
  | _ => false
  end.

(** *** The framework's side of a run

    The answers of the framework to the calls [hvd_init] makes when no
    step fails, each call in the world the call before it left. *)
Record init_answers (W : Type) : Type := {
  ia_handle : ptr;
  ia_type : AVHWDeviceType;
  ia_decoder : ptr;
  ia_ctx : ptr;
  ia_device_err : Z;
  ia_device : ptr;
  ia_ref : ptr;
  ia_open_callbacks : list get_format_call;
  ia_open_err : Z;
  ia_packet : AVPacket.t;
  ia_world : W
}.
Arguments ia_handle {W} _.
Arguments ia_type {W} _.
Arguments ia_decoder {W} _.
Arguments ia_ctx {W} _.
Arguments ia_device_err {W} _.
Arguments ia_device {W} _.
Arguments ia_ref {W} _.
Arguments ia_open_callbacks {W} _.
Arguments ia_open_err {W} _.
Arguments ia_packet {W} _.
Arguments ia_world {W} _.

(** The answers of the framework to the calls [hvd_receive_frame] makes
    when no step fails; [ra_received] is the world [avcodec_receive_frame]
    leaves, [ra_transferred] the one [av_hwframe_transfer_data] leaves. *)
Record receive_answers (W : Type) : Type := {
  ra_hw_frame : ptr;
  ra_sw_frame : ptr;
  ra_callbacks : list get_format_call;
  ra_ret : Z;
  ra_received : W;
  ra_format : Z;
  ra_transfer : Z;
  ra_transferred : W
}.
Arguments ra_hw_frame {W} _.
Arguments ra_sw_frame {W} _.
Arguments ra_callbacks {W} _.
Arguments ra_ret {W} _.
Arguments ra_received {W} _.
Arguments ra_format {W} _.
Arguments ra_transfer {W} _.
Arguments ra_transferred {W} _.

Section FrameworkSide.
Context {W : Type} {F : Framework W} {L : libav_headers}.

Definition init_calls (config : hvd_config) (w : W) : init_answers W :=
  let a_malloc := fw_malloc_hvd w in
  let w1 := fw_av_log_set_level AV_LOG_VERBOSE
              (fw_avcodec_register_all (snd a_malloc)) in
  let a_type := fw_av_hwdevice_find_type_by_name (hardware config) w1 in
  let a_decoder :=
    fw_avcodec_find_decoder_by_name (codec config) (snd a_type) in
  let a_ctx := fw_avcodec_alloc_context3 (fst a_decoder) (snd a_decoder) in
  let w2 := fw_store_get_format (fst a_ctx)
              (fw_store_opaque (fst a_ctx) (fst a_malloc) (snd a_ctx)) in
  let a_device :=
    fw_av_hwdevice_ctx_create (fst a_type) (device config) w2 in
  let a_ref := fw_av_buffer_ref (snd (fst a_device)) (snd a_device) in
  let w3 := fw_store_hw_device_ctx (fst a_ctx) (fst a_ref) (snd a_ref) in
  let h := {| hw_device_ctx := snd (fst a_device);
              hw_pix_fmt := hvd_find_pixel_fmt_by_hw_type (fst a_type);
              decoder_ctx := fst a_ctx;
              sw_frame := NULL; hw_frame := NULL;
              av_packet := AVPacket.zero |} in
  let a_open :=
    reenter (observe_get_format (hvd_get_hw_pix_format h) w3)
            (fw_avcodec_open2 (fst a_ctx) (fst a_decoder) w3) in
  let a_packet := fw_av_init_packet AVPacket.zero (snd a_open) in
  {| ia_handle := fst a_malloc;
     ia_type := fst a_type;
     ia_decoder := fst a_decoder;
     ia_ctx := fst a_ctx;
     ia_device_err := fst (fst a_device);
     ia_device := snd (fst a_device);
     ia_ref := fst a_ref;
     ia_open_callbacks := snd (fst a_open);
     ia_open_err := fst (fst a_open);
     ia_packet := fst a_packet;
     ia_world := snd a_packet |}.

(** The seven setup steps, as answered by the framework: the hardware
    name is found, the device type has a hardware pixel format, the codec
    name is found, the decoder context is allocated, the hardware device
    context is created, the reference to it is taken, the codec context is
    opened. *)
Definition setup_steps_succeed (a : init_answers W) : Prop :=
  ia_type a <> AV_HWDEVICE_TYPE_NONE /\
  hvd_find_pixel_fmt_by_hw_type (ia_type a) <> AV_PIX_FMT_NONE /\
  ia_decoder a <> NULL /\
  ia_ctx a <> NULL /\
  0 <= ia_device_err a /\
  ia_ref a <> NULL /\
  0 <= ia_open_err a.

(** The handle [hvd_init] builds from these answers. *)
Definition init_handle (a : init_answers W) : hvd :=
  {| hw_device_ctx := ia_device a;
     hw_pix_fmt := hvd_find_pixel_fmt_by_hw_type (ia_type a);
     decoder_ctx := ia_ctx a;
     sw_frame := NULL;
     hw_frame := NULL;
     av_packet := {| AVPacket.data := NULL; AVPacket.size := 0;
                     AVPacket.rest := AVPacket.rest (ia_packet a) |} |}.

Definition receive_calls (h : hvd) (w : W) : receive_answers W :=
  let w1 := fw_av_frame_free (sw_frame h)
              (fw_av_frame_free (hw_frame h) w) in
  let a_hw := fw_av_frame_alloc w1 in
  let a_sw := fw_av_frame_alloc (snd a_hw) in
  let a_receive :=
    reenter (observe_get_format (hvd_get_hw_pix_format h) (snd a_sw))
            (fw_avcodec_receive_frame (decoder_ctx h) (fst a_hw) (snd a_sw))
  in
  let a_transfer :=
    fw_av_hwframe_transfer_data (fst a_sw) (fst a_hw) 0 (snd a_receive) in
  {| ra_hw_frame := fst a_hw;
     ra_sw_frame := fst a_sw;
     ra_callbacks := snd (fst a_receive);
     ra_ret := fst (fst a_receive);
     ra_received := snd a_receive;
     ra_format := fw_load_frame_format (fst a_hw) (snd a_receive);
     ra_transfer := fst a_transfer;
     ra_transferred := snd a_transfer |}.

End FrameworkSide.

(** [hvd_init] under framework [F] from world [w] resolved the hardware
    name to [ty] and returned the handle [h]. *)
Definition init_yields `{L : libav_headers} {W : Type} (F : Framework W)
    (config : hvd_config) (w : W) (ty : AVHWDeviceType) (h : hvd) : Prop :=
  result (hvd_init config) w = Some h /\
  In (E_av_hwdevice_find_type_by_name (hardware config) ty)
     (trace (hvd_init config) w).

(** The pixel format of the decoder is the framework's choice: whatever
    table from device types to pixel formats the wrapper might hold, some
    framework makes a successful [hvd_init] store another format. *)
Definition pixel_format_chosen_by_framework `{L : libav_headers} : Prop :=
  forall table : AVHWDeviceType -> AVPixelFormat,
  exists (W : Type) (F : Framework W) config w ty h,
    init_yields F config w ty h /\ hw_pix_fmt h <> table ty.

(** ** Sample instances, used to run the model *)

(** Header values as on Linux: [AVERROR(EAGAIN)] is [-11], [AVERROR_EOF]
    is [-MKTAG('E','O','F',' ')]. *)
Definition sample_headers : libav_headers :=
  {| AVERROR_EAGAIN := -11;
     AVERROR_EOF := -541478725;
     AV_LOG_VERBOSE := 40;
     AV_PIX_FMT_VAAPI := 46;
     AV_PIX_FMT_DXVA2_VLD := 53;
     AV_PIX_FMT_D3D11 := 174;
     AV_PIX_FMT_VDPAU := 109;
     AV_PIX_FMT_VIDEOTOOLBOX := 160 |}.

Definition sample_retval : hvd_retval :=
  {| HVD_OK := 0; HVD_AGAIN := -11; HVD_ERROR := -1 |}.

(** A framework that answers from a script.  Its world counts the frames
    allocated so far; [s_frame_alloc] may depend on that count.  The
    decoder calls offer the lists of [s_open2_offers], [s_send_offers] and
    [s_receive_offers] to the callback before they return. *)
Record script : Type := {
  s_malloc : ptr;
  s_find_type : string -> AVHWDeviceType;
  s_find_decoder : string -> ptr;
  s_alloc_context3 : ptr;
  s_hwdevice_ctx_create : Z * ptr;
  s_buffer_ref : ptr;
  s_open2_offers : list (list AVPixelFormat);
  s_open2 : Z;
  s_init_packet_rest : list Z;
  s_send_offers : list (list AVPixelFormat);
  s_send_packet : Z;
  s_frame_alloc : Z -> ptr;
  s_receive_offers : list (list AVPixelFormat);
  s_receive_frame : Z;
  s_frame_format : Z;
  s_transfer_data : Z
}.

Fixpoint offer {W A : Type} (offers : list (list AVPixelFormat)) (a : A)
    (w : W) : reentrant W A :=
  match offers with
  | [] => fw_return a w
  | fmts :: offers' => fw_get_format fmts (fun _ => offer offers' a w)
  end.

Definition scripted (s : script) : Framework Z :=
  {| fw_malloc_hvd := fun w => (s_malloc s, w);
     fw_avcodec_register_all := fun w => w;
     fw_av_log_set_level := fun _ w => w;
     fw_av_hwdevice_find_type_by_name := fun name w => (s_find_type s name, w);
     fw_avcodec_find_decoder_by_name :=
       fun name w => (s_find_decoder s name, w);
     fw_avcodec_alloc_context3 := fun _ w => (s_alloc_context3 s, w);
     fw_store_opaque := fun _ _ w => w;
     fw_store_get_format := fun _ w => w;
     fw_av_hwdevice_ctx_create := fun _ _ w => (s_hwdevice_ctx_create s, w);
     fw_av_buffer_ref := fun _ w => (s_buffer_ref s, w);
     fw_store_hw_device_ctx := fun _ _ w => w;
     fw_avcodec_open2 := fun _ _ w => offer (s_open2_offers s) (s_open2 s) w;
     fw_av_init_packet :=
       fun pkt w =>
         ({| AVPacket.data := AVPacket.data pkt;
             AVPacket.size := AVPacket.size pkt;
             AVPacket.rest := s_init_packet_rest s |}, w);
     fw_av_frame_free := fun _ w => w;
     fw_avcodec_free_context := fun _ w => w;
     fw_av_buffer_unref := fun _ w => w;
     fw_avcodec_send_packet :=
       fun _ _ w => offer (s_send_offers s) (s_send_packet s) w;
     fw_av_frame_alloc := fun w => (s_frame_alloc s w, w + 1);
     fw_avcodec_receive_frame :=
       fun _ _ w => offer (s_receive_offers s) (s_receive_frame s) w;
     fw_avcodec_flush_buffers := fun _ w => w;
     fw_load_frame_format := fun _ _ => s_frame_format s;
     fw_av_hwframe_transfer_data := fun _ _ _ w => (s_transfer_data s, w) |}.

(** A machine with VAAPI and an h264 decoder on which every call succeeds
    and the decoder delivers VAAPI frames; while it takes a packet the
    decoder offers VAAPI and a software format to the callback. *)
Definition vaapi_machine : script :=
  {| s_malloc := 4096;
     s_find_type :=
       fun name => if String.eqb name "vaapi" then AV_HWDEVICE_TYPE_VAAPI
                   else if String.eqb name "cuda" then AV_HWDEVICE_TYPE_other 2
                   else AV_HWDEVICE_TYPE_NONE;
     s_find_decoder := fun name => if String.eqb name "h264" then 8192 else NULL;
     s_alloc_context3 := 12288;
     s_hwdevice_ctx_create := (0, 16384);
     s_buffer_ref := 20480;
     s_open2_offers := [];
     s_open2 := 0;
     s_init_packet_rest := [-1; -1; 0; 0];
     s_send_offers := [[46; 0]];
     s_send_packet := 0;
     s_frame_alloc := fun n => 24576 + 512 * n;
     s_receive_offers := [];
     s_receive_frame := 0;
     s_frame_format := 46;
     s_transfer_data := 0 |}.

Definition with_malloc (s : script) (p : ptr) : script :=
  {| s_malloc := p;
     s_find_type := s_find_type s;
     s_find_decoder := s_find_decoder s;
     s_alloc_context3 := s_alloc_context3 s;
     s_hwdevice_ctx_create := s_hwdevice_ctx_create s;
     s_buffer_ref := s_buffer_ref s;
     s_open2_offers := s_open2_offers s;
     s_open2 := s_open2 s;
     s_init_packet_rest := s_init_packet_rest s;
     s_send_offers := s_send_offers s;
     s_send_packet := s_send_packet s;
     s_frame_alloc := s_frame_alloc s;
     s_receive_offers := s_receive_offers s;
     s_receive_frame := s_receive_frame s;
     s_frame_format := s_frame_format s;
     s_transfer_data := s_transfer_data s |}.

Definition with_send_packet (s : script) (err : Z) : script :=
  {| s_malloc := s_malloc s;
     s_find_type := s_find_type s;
     s_find_decoder := s_find_decoder s;
     s_alloc_context3 := s_alloc_context3 s;
     s_hwdevice_ctx_create := s_hwdevice_ctx_create s;
     s_buffer_ref := s_buffer_ref s;
     s_open2_offers := s_open2_offers s;
     s_open2 := s_open2 s;
     s_init_packet_rest := s_init_packet_rest s;
     s_send_offers := s_send_offers s;
     s_send_packet := err;
     s_frame_alloc := s_frame_alloc s;
     s_receive_offers := s_receive_offers s;
     s_receive_frame := s_receive_frame s;
     s_frame_format := s_frame_format s;
     s_transfer_data := s_transfer_data s |}.

Definition with_receive_frame (s : script) (ret : Z) : script :=
  {| s_malloc := s_malloc s;
     s_find_type := s_find_type s;
     s_find_decoder := s_find_decoder s;
     s_alloc_context3 := s_alloc_context3 s;
     s_hwdevice_ctx_create := s_hwdevice_ctx_create s;
     s_buffer_ref := s_buffer_ref s;
     s_open2_offers := s_open2_offers s;
     s_open2 := s_open2 s;
     s_init_packet_rest := s_init_packet_rest s;
     s_send_offers := s_send_offers s;
     s_send_packet := s_send_packet s;
     s_frame_alloc := s_frame_alloc s;
     s_receive_offers := s_receive_offers s;
     s_receive_frame := ret;
     s_frame_format := s_frame_format s;
     s_transfer_data := s_transfer_data s |}.

Definition with_frame_format (s : script) (format : Z) : script :=
  {| s_malloc := s_malloc s;
     s_find_type := s_find_type s;
     s_find_decoder := s_find_decoder s;
     s_alloc_context3 := s_alloc_context3 s;
     s_hwdevice_ctx_create := s_hwdevice_ctx_create s;
     s_buffer_ref := s_buffer_ref s;
     s_open2_offers := s_open2_offers s;
     s_open2 := s_open2 s;
     s_init_packet_rest := s_init_packet_rest s;
     s_send_offers := s_send_offers s;
     s_send_packet := s_send_packet s;
     s_frame_alloc := s_frame_alloc s;
     s_receive_offers := s_receive_offers s;
     s_receive_frame := s_receive_frame s;
     s_frame_format := format;
     s_transfer_data := s_transfer_data s |}.

Definition vaapi_h264 : hvd_config :=
  {| hardware := "vaapi"; codec := "h264"; device := Some "/dev/dri/renderD128" |}.

Definition cuda_h264 : hvd_config :=
  {| hardware := "cuda"; codec := "h264"; device := None |}.

(** The handle [hvd_init] returns on [vaapi_machine] for [vaapi_h264]. *)
Definition vaapi_handle : hvd :=
  {| hw_device_ctx := 16384; hw_pix_fmt := 46; decoder_ctx := 12288;
     sw_frame := NULL; hw_frame := NULL;
     av_packet := {| AVPacket.data := NULL; AVPacket.size := 0;
                     AVPacket.rest := [-1; -1; 0; 0] |} |}.

(** The three entry points on a scripted framework with the sample
    headers. *)
Definition sample_init (s : script) : hvd_config -> M Z (option hvd) :=
  @hvd_init Z (scripted s) sample_headers.

Definition sample_send_packet (s : script)
  : hvd -> option hvd_packet -> M Z (Z * hvd) :=
  @hvd_send_packet Z (scripted s) sample_headers sample_retval.

Definition sample_receive_frame (s : script) : hvd -> M Z (ptr * Z * hvd) :=
  @hvd_receive_frame Z (scripted s) sample_headers sample_retval.

(** [vaapi_handle] after a successful [hvd_receive_frame] on
    [vaapi_machine] from world [0]. *)
Definition vaapi_handle_with_frames : hvd :=
  set_sw_frame (set_hw_frame vaapi_handle 24576) 25088.

(** ** Using the library: sequences of calls *)

(** What a user does with a handle between [hvd_init] and [hvd_close]. *)
Inductive user_call : Type :=
| call_send_packet (packet : option hvd_packet)
| call_receive_frame.

Section Usage.
Context {W : Type} {F : Framework W} {L : libav_headers} {R : hvd_retval}.

(** The calls of [calls] in order on one handle; the content of the
    handle's struct afterwards. *)
Fixpoint session (h : hvd) (calls : list user_call) : M W hvd :=
  match calls with
  | [] => ret h
  | call_send_packet packet :: calls' =>
      r <- hvd_send_packet h packet ;;
      session (snd r) calls'
  | call_receive_frame :: calls' =>
      r <- hvd_receive_frame h ;;
      session (snd r) calls'
  end.

(** [hvd_init], then [calls] on the handle, then [hvd_close]; [false] when
    [hvd_init] returned NULL. *)
Definition lifetime (config : hvd_config) (calls : list user_call)
  : M W bool :=
  o <- hvd_init config ;;
  match o with
  | None => ret false
  | Some h =>
      h <- session h calls ;;
      hvd_close h ;;
      ret true
  end.
End Usage.

(** ** More observations of a trace *)

(** The format strings written to [stderr] during a run, in order: by the
    [fprintf] calls of the function itself and by the callback inside the
    calls of the decoder. *)
Definition callback_lines (callbacks : list get_format_call)
  : list string :=
  flat_map gf_stderr callbacks.

Definition stderr_lines (tr : list event) : list string :=
  flat_map (fun e => match e with
                     | E_fprintf_stderr fmt _ => [fmt]
                     | E_avcodec_open2 _ _ callbacks _
                     | E_avcodec_send_packet _ _ callbacks _
                     | E_avcodec_receive_frame _ _ callbacks _ =>
                         callback_lines callbacks
                     | _ => []
                     end) tr.


(** The frames [av_frame_alloc] handed out, and the frames handed to
    [av_frame_free]. *)
Definition allocated_frames (tr : list event) : list ptr :=
  flat_map (fun e => match e with
                     | E_av_frame_alloc frame => [frame]
                     | _ => []
                     end) tr.

Definition released_frames (tr : list event) : list ptr :=
  flat_map (fun e => match e with
                     | E_av_frame_free frame => [frame]
                     | _ => []
                     end) tr.

(** The codec contexts [avcodec_alloc_context3] handed out, and those
    handed to [avcodec_free_context]. *)
Definition allocated_contexts (tr : list event) : list ptr :=
  flat_map (fun e => match e with
                     | E_avcodec_alloc_context3 _ ctx => [ctx]
                     | _ => []
                     end) tr.

Definition released_contexts (tr : list event) : list ptr :=
  flat_map (fun e => match e with
                     | E_avcodec_free_context ctx => [ctx]
                     | _ => []
                     end) tr.

(** The device contexts [av_hwdevice_ctx_create] left in
    [h->hw_device_ctx], and those handed to [av_buffer_unref]. *)
Definition created_devices (tr : list event) : list ptr :=
  flat_map (fun e => match e with
                     | E_av_hwdevice_ctx_create _ _ _ device_ctx =>
                         [device_ctx]
                     | _ => []
                     end) tr.

Definition released_devices (tr : list event) : list ptr :=
  flat_map (fun e => match e with
                     | E_av_buffer_unref buf => [buf]
                     | _ => []
                     end) tr.

(** The event is a call into the decoder, and the context it names. *)
Definition decoder_call (e : event) : option ptr :=
  match e with
  | E_avcodec_send_packet ctx _ _ _ => Some ctx
  | E_avcodec_receive_frame ctx _ _ _ => Some ctx
  | E_avcodec_flush_buffers ctx => Some ctx
  | _ => None
  end.

(** The packets of the [hvd_send_packet] calls of a session, in order, and
    the [AVPacket] that stands for one of them in a handle whose packet has
    the remaining members [rest]. *)
Definition packets_of (calls : list user_call) : list (option hvd_packet) :=
  flat_map (fun c => match c with
                     | call_send_packet packet => [packet]
                     | call_receive_frame => []
                     end) calls.

Definition forwarded (rest : list Z) (packet : option hvd_packet)
  : AVPacket.t :=
  match packet with
  | Some packet =>
      {| AVPacket.data := data packet; AVPacket.size := size packet;
         AVPacket.rest := rest |}
  | None =>
      {| AVPacket.data := NULL; AVPacket.size := 0; AVPacket.rest := rest |}
  end.

Definition sample_lifetime (s : script)
  : hvd_config -> list user_call -> M Z bool :=
  @lifetime Z (scripted s) sample_headers sample_retval.

Definition with_frame_alloc (s : script) (f : Z -> ptr) : script :=
  {| s_malloc := s_malloc s;
     s_find_type := s_find_type s;
     s_find_decoder := s_find_decoder s;
     s_alloc_context3 := s_alloc_context3 s;
     s_hwdevice_ctx_create := s_hwdevice_ctx_create s;
     s_buffer_ref := s_buffer_ref s;
     s_open2_offers := s_open2_offers s;
     s_open2 := s_open2 s;
     s_init_packet_rest := s_init_packet_rest s;
     s_send_offers := s_send_offers s;
     s_send_packet := s_send_packet s;
     s_frame_alloc := f;
     s_receive_offers := s_receive_offers s;
     s_receive_frame := s_receive_frame s;
     s_frame_format := s_frame_format s;
     s_transfer_data := s_transfer_data s |}.

Definition with_open2 (s : script) (err : Z) : script :=
  {| s_malloc := s_malloc s;
     s_find_type := s_find_type s;
     s_find_decoder := s_find_decoder s;
     s_alloc_context3 := s_alloc_context3 s;
     s_hwdevice_ctx_create := s_hwdevice_ctx_create s;
     s_buffer_ref := s_buffer_ref s;
     s_open2_offers := s_open2_offers s;
     s_open2 := err;
     s_init_packet_rest := s_init_packet_rest s;
     s_send_offers := s_send_offers s;
     s_send_packet := s_send_packet s;
     s_frame_alloc := s_frame_alloc s;
     s_receive_offers := s_receive_offers s;
     s_receive_frame := s_receive_frame s;
     s_frame_format := s_frame_format s;
     s_transfer_data := s_transfer_data s |}.

Definition with_send_offers (s : script)
    (offers : list (list AVPixelFormat)) : script :=
  {| s_malloc := s_malloc s;
     s_find_type := s_find_type s;
     s_find_decoder := s_find_decoder s;
     s_alloc_context3 := s_alloc_context3 s;
     s_hwdevice_ctx_create := s_hwdevice_ctx_create s;
     s_buffer_ref := s_buffer_ref s;
     s_open2_offers := s_open2_offers s;
     s_open2 := s_open2 s;
     s_init_packet_rest := s_init_packet_rest s;
     s_send_offers := offers;
     s_send_packet := s_send_packet s;
     s_frame_alloc := s_frame_alloc s;
     s_receive_offers := s_receive_offers s;
     s_receive_frame := s_receive_frame s;
     s_frame_format := s_frame_format s;
     s_transfer_data := s_transfer_data s |}.

Definition with_open2_offers (s : script)
    (offers : list (list AVPixelFormat)) : script :=
  {| s_malloc := s_malloc s;
     s_find_type := s_find_type s;
     s_find_decoder := s_find_decoder s;
     s_alloc_context3 := s_alloc_context3 s;
     s_hwdevice_ctx_create := s_hwdevice_ctx_create s;
     s_buffer_ref := s_buffer_ref s;
     s_open2_offers := offers;
     s_open2 := s_open2 s;
     s_init_packet_rest := s_init_packet_rest s;
     s_send_offers := s_send_offers s;
     s_send_packet := s_send_packet s;
     s_frame_alloc := s_frame_alloc s;
     s_receive_offers := s_receive_offers s;
     s_receive_frame := s_receive_frame s;
     s_frame_format := s_frame_format s;
     s_transfer_data := s_transfer_data s |}.

(* ===================================================================== *)
(** * Properties *)

Section Properties.
Context {W : Type} {F : Framework W} {L : libav_headers} {R : hvd_retval}.

#[local] Arguments observe_get_format : simpl never.

(** ** The callback as the decoder sees it *)

Lemma hvd_get_hw_pix_format_loop_same_format (h1 h2 : hvd)
    (p : list AVPixelFormat) :
  hw_pix_fmt h1 = hw_pix_fmt h2 ->
  hvd_get_hw_pix_format_loop h1 p = hvd_get_hw_pix_format_loop h2 p.
Proof.
  intros E. induction p as [|x p IH]; cbn; [reflexivity|].
  rewrite E, IH. reflexivity.
Qed.

(** The callback reads nothing of the handle but [hw_pix_fmt]. *)
Lemma observe_get_format_same_format (h1 h2 : hvd) (w : W)
    (fmts : list AVPixelFormat) :
  hw_pix_fmt h1 = hw_pix_fmt h2 ->
  observe_get_format (hvd_get_hw_pix_format h1) w fmts
  = observe_get_format (hvd_get_hw_pix_format h2) w fmts.
Proof.
  intros E. unfold observe_get_format, hvd_get_hw_pix_format.
  rewrite (hvd_get_hw_pix_format_loop_same_format h1 h2 _ E). reflexivity.
Qed.

Lemma reenter_ext {A : Type}
    (g1 g2 : list AVPixelFormat -> get_format_call) (r : reentrant W A) :
  (forall fmts, g1 fmts = g2 fmts) -> reenter g1 r = reenter g2 r.
Proof.
  intros E. induction r as [a w | fmts k IH]; cbn; [reflexivity|].
  rewrite E, IH. reflexivity.
Qed.

Lemma reenter_same_format {A : Type} (h1 h2 : hvd) (w : W)
    (r : reentrant W A) :
  hw_pix_fmt h1 = hw_pix_fmt h2 ->
  reenter (observe_get_format (hvd_get_hw_pix_format h1) w) r
  = reenter (observe_get_format (hvd_get_hw_pix_format h2) w) r.
Proof.
  intros E. apply reenter_ext. intros fmts.
  apply observe_get_format_same_format, E.
Qed.

(** ** Stepping through a run *)

Ltac unfold_externals H :=
  unfold malloc_hvd, fprintf_stderr, avcodec_register_all, av_log_set_level,
    av_hwdevice_find_type_by_name, avcodec_find_decoder_by_name,
    avcodec_alloc_context3, store_opaque, store_get_format,
    av_hwdevice_ctx_create, av_buffer_ref, store_hw_device_ctx,
    avcodec_open2, av_init_packet, av_frame_free, avcodec_free_context,
    av_buffer_unref, avcodec_send_packet, av_frame_alloc,
    avcodec_receive_frame, avcodec_flush_buffers, load_frame_format,
    av_hwframe_transfer_data in H.

(* Give a name to the answer of an external call whose arguments are
   already named. *)
Ltac name_answer H :=
  match type of H with
  | context [fst ?c] =>
      lazymatch c with
      | context [fst _] => fail
      | context [snd _] => fail
      | _ => let E := fresh "Call" in destruct c eqn:E
      end
  | context [snd ?c] =>
      lazymatch c with
      | context [fst _] => fail
      | context [snd _] => fail
      | _ => let E := fresh "Call" in destruct c eqn:E
      end
  end.

Ltac split_test H :=
  match type of H with
  | context [if ?b then _ else _] =>
      let E := fresh "Test" in destruct b eqn:E
  end.

(* All the paths of the run in [H : m w = (a, tr, w')]; the callback the
   decoder sees is written with the handle [h]. *)
Ltac run_paths h H :=
  unfold_externals H; unfold bind, call, call_, call_reentrant, ret in H;
  unfold AVPacket.set_size, AVPacket.set_data, set_hw_device_ctx,
    set_hw_pix_fmt, set_decoder_ctx, set_sw_frame, set_hw_frame,
    set_av_packet in H;
  cbn in H;
  repeat (try rewrite (reenter_same_format _ h) in H by reflexivity;
          first [name_answer H | split_test H]; cbn in H; cbn [fst snd]);
  inversion H; subst; clear H.

Ltac run_cases H :=
  unfold_externals H; unfold bind, call, call_, call_reentrant, ret in H;
  unfold AVPacket.set_size, AVPacket.set_data, set_hw_device_ctx,
    set_hw_pix_fmt, set_decoder_ctx, set_sw_frame, set_hw_frame,
    set_av_packet in H;
  cbn in H;
  repeat (first [name_answer H | split_test H]; cbn in H; cbn [fst snd]);
  inversion H; subst; clear H.

Ltac tests_to_props :=
  unfold is_null, NULL in *;
  repeat match goal with
         | T : (_ <? _) = true |- _ => apply Z.ltb_lt in T
         | T : (_ <? _) = false |- _ => apply Z.ltb_ge in T
         | T : (_ =? _) = true |- _ => apply Z.eqb_eq in T
         | T : (_ =? _) = false |- _ => apply Z.eqb_neq in T
         | T : (_ || _)%bool = true |- _ => apply orb_true_iff in T
         | T : (_ || _)%bool = false |- _ =>
             apply orb_false_iff in T; destruct T
         | T : negb _ = true |- _ => apply negb_true_iff in T
         | T : negb _ = false |- _ => apply negb_false_iff in T
         end.

(* Decide the tests of the goal by the tests of the path. *)
Ltac use_tests :=
  cbn;
  repeat match goal with
         | T : _ = true |- _ => progress rewrite T
         | T : _ = false |- _ => progress rewrite T
         end;
  cbn.

(* Which events of a known trace a given event can be. *)
Ltac in_trace :=
  repeat match goal with
         | H : In _ (_ :: _) |- _ =>
             destruct H as [H | H];
             [try discriminate H; inversion H; subst; clear H|]
         | H : In _ [] |- _ => destruct H
         end.

(* An event of a known trace. *)
Ltac find_event :=
  cbn [In]; solve [repeat first [left; reflexivity | right]].

(** ** Runs of composed programs *)

Lemma result_bind {A B : Type} (m : M W A) (k : A -> M W B) (w : W) :
  result (bind m k) w = result (k (result m w)) (world_after m w).
Proof.
  unfold result, world_after, bind.
  destruct (m w) as [[a t1] w1]; cbn.
  destruct (k a w1) as [[b t2] w2]; reflexivity.
Qed.

Lemma trace_bind {A B : Type} (m : M W A) (k : A -> M W B) (w : W) :
  trace (bind m k) w
  = trace m w ++ trace (k (result m w)) (world_after m w).
Proof.
  unfold trace, result, world_after, bind.
  destruct (m w) as [[a t1] w1]; cbn.
  destruct (k a w1) as [[b t2] w2]; reflexivity.
Qed.

Lemma trace_ret {A : Type} (a : A) (w : W) : trace (ret a) w = [].
Proof. reflexivity. Qed.

Lemma world_after_bind {A B : Type} (m : M W A) (k : A -> M W B) (w : W) :
  world_after (bind m k) w
  = world_after (k (result m w)) (world_after m w).
Proof.
  unfold result, world_after, bind.
  destruct (m w) as [[a t1] w1]; cbn.
  destruct (k a w1) as [[b t2] w2]; reflexivity.
Qed.

(** ** [hvd_send_packet] *)

(** The whole run of [hvd_send_packet] from the answer of the framework
    to the one call it makes. *)
Lemma hvd_send_packet_run (h : hvd) (packet : option hvd_packet) (w : W) :
  let pkt := forwarded (AVPacket.rest (av_packet h)) packet in
  let answer :=
    reenter (observe_get_format (hvd_get_hw_pix_format h) w)
            (fw_avcodec_send_packet (decoder_ctx h) pkt w) in
  let err := fst (fst answer) in
  hvd_send_packet h packet w
  = ((if err <? 0
      then if err =? AVERROR_EAGAIN then HVD_AGAIN else HVD_ERROR
      else HVD_OK,
      set_av_packet h pkt),
     E_avcodec_send_packet (decoder_ctx h) pkt (snd (fst answer)) err
       :: (if err <? 0
           then [E_fprintf_stderr "hvd: send_packet error %d\n" [arg_d err]]
           else []),
     snd answer).
Proof.
  cbv zeta.
  destruct (hvd_send_packet h packet w) as [[[r h'] tr] w'] eqn:Run.
  unfold hvd_send_packet in Run.
  destruct packet as [packet|]; cbn [forwarded].
  all: run_paths h Run; use_tests; reflexivity.
Qed.

(** C1. [hvd_send_packet] hands the packet to [avcodec_send_packet] and
    leaves the world that call leaves; the code [err] the framework
    answers decides the return value: [HVD_OK] when [err] is non-negative,
    [HVD_AGAIN] when [err] is [AVERROR(EAGAIN)], [HVD_ERROR] for every
    other negative [err]; nothing else is returned.  [AVERROR(EAGAIN)] is
    a negative code, as every [AVERROR]. *)
Theorem hvd_send_packet_return_code (h : hvd) (packet : option hvd_packet)
    (w : W) :
  AVERROR_EAGAIN < 0 ->
  let answer :=
    reenter (observe_get_format (hvd_get_hw_pix_format h) w)
            (fw_avcodec_send_packet (decoder_ctx h)
               (forwarded (AVPacket.rest (av_packet h)) packet) w) in
  let err := fst (fst answer) in
  let r := fst (result (hvd_send_packet h packet) w) in
  world_after (hvd_send_packet h packet) w = snd answer /\
  send_codes (trace (hvd_send_packet h packet) w) = [err] /\
  (0 <= err -> r = HVD_OK) /\
  (err = AVERROR_EAGAIN -> r = HVD_AGAIN) /\
  (err < 0 -> err <> AVERROR_EAGAIN -> r = HVD_ERROR) /\
  (r = HVD_OK \/ r = HVD_AGAIN \/ r = HVD_ERROR).
Proof.
  intros Hneg. cbv zeta.
  unfold result, trace, world_after.
  rewrite hvd_send_packet_run. cbv zeta. cbn [fst snd].
  set (err := fst (fst (reenter _ _))).
  split; [reflexivity|].
  split; [destruct (err <? 0); reflexivity|].
  destruct (err <? 0) eqn:T1; destruct (err =? AVERROR_EAGAIN) eqn:T2.
  all: tests_to_props; repeat split; intros; auto; try lia; try congruence.
Qed.

(** C5. The packet [hvd_send_packet] hands to [avcodec_send_packet], on
    the handle's decoder context, carries the caller's [data] pointer and
    [size] when the caller passes a packet, and [data == NULL],
    [size == 0] when the caller passes NULL; the other members are those
    of the handle's [av_packet].  The call is made: the run ends in the
    world the framework leaves after this call, and it is the one call of
    the decoder in the trace. *)
Theorem hvd_send_packet_forwards_data (h : hvd) (w : W) :
  (forall packet : hvd_packet,
      let pkt := {| AVPacket.data := data packet;
                    AVPacket.size := size packet;
                    AVPacket.rest := AVPacket.rest (av_packet h) |} in
      let answer :=
        reenter (observe_get_format (hvd_get_hw_pix_format h) w)
                (fw_avcodec_send_packet (decoder_ctx h) pkt w) in
      world_after (hvd_send_packet h (Some packet)) w = snd answer /\
      sent_packets (trace (hvd_send_packet h (Some packet)) w) = [pkt] /\
      In (E_avcodec_send_packet (decoder_ctx h) pkt (snd (fst answer))
            (fst (fst answer)))
         (trace (hvd_send_packet h (Some packet)) w)) /\
  (let pkt := {| AVPacket.data := NULL;
                 AVPacket.size := 0;
                 AVPacket.rest := AVPacket.rest (av_packet h) |} in
   let answer :=
     reenter (observe_get_format (hvd_get_hw_pix_format h) w)
             (fw_avcodec_send_packet (decoder_ctx h) pkt w) in
   world_after (hvd_send_packet h None) w = snd answer /\
   sent_packets (trace (hvd_send_packet h None) w) = [pkt] /\
   In (E_avcodec_send_packet (decoder_ctx h) pkt (snd (fst answer))
         (fst (fst answer)))
      (trace (hvd_send_packet h None) w)).
Proof.
  split; [intros packet|]; cbv zeta; unfold trace, world_after.
  all: rewrite hvd_send_packet_run; cbv zeta; cbn [fst snd forwarded].
  all: split; [reflexivity|]; split; [|left; reflexivity].
  all: match goal with |- context [if ?b then _ else _] => destruct b end;
    reflexivity.
Qed.

(** C9. Whatever it returns, [hvd_send_packet] leaves [hw_device_ctx],
    [hw_pix_fmt], [decoder_ctx], [sw_frame] and [hw_frame] of the handle as
    they were; in [av_packet] it writes [data] and [size] only, and it does
    so before the call: the packet the framework receives is the handle's
    [av_packet] as the call leaves it. *)
Theorem hvd_send_packet_frame (h : hvd) (packet : option hvd_packet)
    (w : W) :
  let h' := snd (result (hvd_send_packet h packet) w) in
  hw_device_ctx h' = hw_device_ctx h /\
  hw_pix_fmt h' = hw_pix_fmt h /\
  decoder_ctx h' = decoder_ctx h /\
  sw_frame h' = sw_frame h /\
  hw_frame h' = hw_frame h /\
  AVPacket.rest (av_packet h') = AVPacket.rest (av_packet h) /\
  sent_packets (trace (hvd_send_packet h packet) w) = [av_packet h'].
Proof.
  cbv zeta. unfold result, trace.
  rewrite hvd_send_packet_run. cbv zeta. cbn [fst snd].
  repeat split; try (destruct packet; reflexivity).
  match goal with |- context [if ?b then _ else _] => destruct b end;
    reflexivity.
Qed.


(** ** [hvd_receive_frame] *)

(* The run [Run] of [hvd_receive_frame h] against the answers of
   [receive_calls h w] in the goal. *)
Ltac receive_paths h w :=
  cbv zeta; unfold result, trace, world_after, receive_calls;
  cbn [ra_hw_frame ra_sw_frame ra_callbacks ra_ret ra_received ra_format
       ra_transfer ra_transferred fst snd];
  let Run := fresh "Run" in
  destruct (hvd_receive_frame h w) as [[[[? ?] ?] ?] ?] eqn:Run;
  unfold hvd_receive_frame in Run; run_paths h Run;
  cbn [fst snd]; tests_to_props.

(** C3. [hvd_receive_frame] returns a frame exactly when the framework
    allocates the hardware and the system-memory frame, delivers a decoded
    frame into the hardware frame, that frame has the handle's hardware
    pixel format, and [av_hwframe_transfer_data] from the hardware frame
    into the system-memory frame succeeds.  The frame returned is then
    that system-memory frame, and the run ends in the world the transfer
    leaves.  A decoded frame of another pixel format is not transferred
    and not returned. *)
Theorem hvd_receive_frame_returns_transferred_frame (h : hvd) (w : W) :
  let a := receive_calls h w in
  let frame := fst (fst (result (hvd_receive_frame h) w)) in
  let h' := snd (result (hvd_receive_frame h) w) in
  let transferred :=
    ra_hw_frame a <> NULL /\ ra_sw_frame a <> NULL /\ 0 <= ra_ret a /\
    ra_format a = hw_pix_fmt h /\ 0 <= ra_transfer a in
  (frame <> NULL <-> transferred) /\
  (transferred ->
   frame = ra_sw_frame a /\
   sw_frame h' = ra_sw_frame a /\ hw_frame h' = ra_hw_frame a /\
   world_after (hvd_receive_frame h) w = ra_transferred a /\
   trace (hvd_receive_frame h) w =
     [ E_av_frame_free (hw_frame h);
       E_av_frame_free (sw_frame h);
       E_av_frame_alloc (ra_hw_frame a);
       E_av_frame_alloc (ra_sw_frame a);
       E_avcodec_receive_frame (decoder_ctx h) (ra_hw_frame a)
         (ra_callbacks a) (ra_ret a);
       E_load_frame_format (ra_hw_frame a) (hw_pix_fmt h);
       E_av_hwframe_transfer_data (ra_sw_frame a) (ra_hw_frame a) 0
         (ra_transfer a) ]) /\
  (ra_hw_frame a <> NULL -> ra_sw_frame a <> NULL -> 0 <= ra_ret a ->
   ra_format a <> hw_pix_fmt h ->
   frame = NULL /\ world_after (hvd_receive_frame h) w = ra_received a).
Proof.
  receive_paths h w.
  all: repeat match goal with
         | |- _ /\ _ => split
         | |- _ <-> _ => split
         | |- _ -> _ => intro
         | H : _ /\ _ |- _ => destruct H
         end.
  all: try reflexivity; try congruence; try lia; auto.
  all: try (exfalso; auto; fail).
Qed.

(** C4. [hvd_receive_frame] always leaves [HVD_OK] or [HVD_ERROR] in
    [*error].  A frame comes with [HVD_OK].  NULL comes with [HVD_OK]
    exactly when the two frames were allocated and the framework answered
    [avcodec_receive_frame] with [AVERROR(EAGAIN)] or [AVERROR_EOF]; after
    [AVERROR_EOF] the run ends in the world [avcodec_flush_buffers] leaves
    when called on the decoder context after that answer, after
    [AVERROR(EAGAIN)] in the world of the answer itself.  Every other NULL
    comes with [HVD_ERROR].  The two return codes of [hvd.h] differ and
    the two framework codes are negative. *)
Theorem hvd_receive_frame_error (h : hvd) (w : W) :
  HVD_OK <> HVD_ERROR ->
  AVERROR_EAGAIN < 0 ->
  AVERROR_EOF < 0 ->
  let a := receive_calls h w in
  let frame := fst (fst (result (hvd_receive_frame h) w)) in
  let error := snd (fst (result (hvd_receive_frame h) w)) in
  let allocated := ra_hw_frame a <> NULL /\ ra_sw_frame a <> NULL in
  let more_or_eof :=
    allocated /\ (ra_ret a = AVERROR_EAGAIN \/ ra_ret a = AVERROR_EOF) in
  (error = HVD_OK \/ error = HVD_ERROR) /\
  (frame <> NULL -> error = HVD_OK) /\
  (frame = NULL /\ error = HVD_OK <-> more_or_eof) /\
  (allocated -> ra_ret a = AVERROR_EOF ->
   world_after (hvd_receive_frame h) w
   = fw_avcodec_flush_buffers (decoder_ctx h) (ra_received a) /\
   In (E_avcodec_flush_buffers (decoder_ctx h))
      (trace (hvd_receive_frame h) w)) /\
  (allocated -> ra_ret a = AVERROR_EAGAIN -> ra_ret a <> AVERROR_EOF ->
   world_after (hvd_receive_frame h) w = ra_received a) /\
  (frame = NULL -> ~ more_or_eof -> error = HVD_ERROR).
Proof.
  intros Hdiff Hagain Heof.
  receive_paths h w.
  all: repeat match goal with
         | |- _ /\ _ => split
         | |- _ <-> _ => split
         | |- _ -> _ => intro
         | H : _ /\ _ |- _ => destruct H
         end.
  all: try reflexivity; try congruence; try lia; auto.
  all: try (exfalso; auto; fail).
  all: try (cbn; tauto).
  all: try (exfalso;
            match goal with H : ~ _ |- _ => apply H; repeat split; auto end;
            fail).
Qed.

(** ** [hvd_close] *)

(** What [hvd_close] calls, and the handle it leaves. *)
Lemma hvd_close_run (h : hvd) (w : W) :
  trace (hvd_close h) w =
    [ E_av_frame_free (sw_frame h); E_av_frame_free (hw_frame h);
      E_avcodec_free_context (decoder_ctx h);
      E_av_buffer_unref (hw_device_ctx h) ] /\
  result (hvd_close h) w =
    {| hw_device_ctx := NULL; hw_pix_fmt := hw_pix_fmt h;
       decoder_ctx := NULL; sw_frame := NULL; hw_frame := NULL;
       av_packet := av_packet h |}.
Proof.
  unfold result, trace.
  destruct (hvd_close h w) as [[h1 tr] w1] eqn:Run.
  unfold hvd_close in Run; run_cases Run; cbn.
  split; reflexivity.
Qed.

(** X1. [hvd_close] leaves the four pointers of the handle NULL and the
    pixel format and the packet as they were, so a second [hvd_close]
    hands nothing but NULL to the release functions: no object is
    released twice. *)
Theorem hvd_close_twice_releases_once (h : hvd) (w w' : W) :
  let h1 := result (hvd_close h) w in
  h1 = {| hw_device_ctx := NULL; hw_pix_fmt := hw_pix_fmt h;
          decoder_ctx := NULL; sw_frame := NULL; hw_frame := NULL;
          av_packet := av_packet h |} /\
  trace (hvd_close h1) w' =
    [ E_av_frame_free NULL; E_av_frame_free NULL;
      E_avcodec_free_context NULL; E_av_buffer_unref NULL ] /\
  result (hvd_close h1) w' = h1.
Proof.
  cbv zeta.
  destruct (hvd_close_run h w) as [_ ->].
  split; [reflexivity|].
  destruct (hvd_close_run
              {| hw_device_ctx := NULL; hw_pix_fmt := hw_pix_fmt h;
                 decoder_ctx := NULL; sw_frame := NULL; hw_frame := NULL;
                 av_packet := av_packet h |} w') as [-> ->].
  split; reflexivity.
Qed.

(** X9. Whatever it returns, [hvd_receive_frame] leaves [hw_device_ctx],
    [hw_pix_fmt], [decoder_ctx] and [av_packet] of the handle as they
    were. *)
Theorem hvd_receive_frame_frame (h : hvd) (w : W) :
  let h' := snd (result (hvd_receive_frame h) w) in
  hw_device_ctx h' = hw_device_ctx h /\
  hw_pix_fmt h' = hw_pix_fmt h /\
  decoder_ctx h' = decoder_ctx h /\
  av_packet h' = av_packet h.
Proof.
  unfold result.
  destruct (hvd_receive_frame h w) as [[[[f e] h1] tr] w'] eqn:Run.
  unfold hvd_receive_frame in Run; run_cases Run; cbn.
  all: repeat split; reflexivity.
Qed.

(** The frames and the calls of one [hvd_receive_frame]. *)
Lemma hvd_receive_frame_frames (h : hvd) (w : W) :
  let h' := snd (result (hvd_receive_frame h) w) in
  let frame := fst (fst (result (hvd_receive_frame h) w)) in
  let tr := trace (hvd_receive_frame h) w in
  released_frames tr = [hw_frame h; sw_frame h] /\
  (allocated_frames tr = [hw_frame h'; sw_frame h'] \/
   allocated_frames tr = [hw_frame h'] /\
   hw_frame h' = NULL /\ sw_frame h' = NULL) /\
  (exists tl, tr = E_av_frame_free (hw_frame h)
                     :: E_av_frame_free (sw_frame h) :: tl) /\
  (frame <> NULL -> frame = sw_frame h').
Proof.
  unfold result, trace.
  destruct (hvd_receive_frame h w) as [[[[f e] h1] tr] w'] eqn:Run.
  unfold hvd_receive_frame in Run; run_cases Run; cbn.
  all: tests_to_props.
  all: split; [reflexivity|]; split;
    [| split; [eexists; reflexivity | intros Hf; try reflexivity;
                                      exfalso; apply Hf; reflexivity]].
  all: try (left; reflexivity).
  all: right; subst; repeat split; reflexivity.
Qed.

(** X10. [hvd_receive_frame] releases the two frames the handle held
    before it allocates, and at its return the handle holds exactly the
    frames it allocated: the hardware frame and the system-memory frame,
    or NULL where the allocation was not made. *)
Theorem hvd_receive_frame_owns_its_frames (h : hvd) (w : W) :
  let h' := snd (result (hvd_receive_frame h) w) in
  let tr := trace (hvd_receive_frame h) w in
  released_frames tr = [hw_frame h; sw_frame h] /\
  (allocated_frames tr = [hw_frame h'; sw_frame h'] \/
   allocated_frames tr = [hw_frame h'] /\
   hw_frame h' = NULL /\ sw_frame h' = NULL) /\
  exists tl, tr = E_av_frame_free (hw_frame h)
                    :: E_av_frame_free (sw_frame h) :: tl.
Proof.
  destruct (hvd_receive_frame_frames h w) as (Hrel & Halloc & Htl & _).
  cbv zeta. auto.
Qed.

(** X11. The frame [hvd_receive_frame] returns stays with the library:
    the next [hvd_receive_frame] on the handle and [hvd_close] hand it to
    [av_frame_free]. *)
Theorem hvd_receive_frame_result_released_by_next_call (h : hvd) (w : W)
    (frame : ptr) (error : Z) (h' : hvd) :
  result (hvd_receive_frame h) w = (frame, error, h') ->
  frame <> NULL ->
  forall w',
    In (E_av_frame_free frame) (trace (hvd_receive_frame h') w') /\
    In (E_av_frame_free frame) (trace (hvd_close h') w').
Proof.
  intros Res Hframe w'.
  destruct (hvd_receive_frame_frames h w) as (_ & _ & _ & Hsw).
  cbv zeta in Hsw. rewrite Res in Hsw. cbn in Hsw.
  specialize (Hsw Hframe).
  destruct (hvd_receive_frame_frames h' w') as (_ & _ & (tl & Htr) & _).
  destruct (hvd_close_run h' w') as [Hcl _].
  rewrite Htr, Hcl, Hsw. split; cbn; auto.
Qed.


(** X13. [hvd_receive_frame] transfers to system memory only a frame that
    [avcodec_receive_frame] delivered with success and whose pixel format
    is the handle's hardware format, and it flushes the decoder only after
    [AVERROR_EOF]. *)
Theorem hvd_receive_frame_transfer_and_flush_guards (h : hvd) (w : W) :
  let tr := trace (hvd_receive_frame h) w in
  (forall dst src flags r,
      In (E_av_hwframe_transfer_data dst src flags r) tr ->
      flags = 0 /\ dst <> NULL /\ src <> NULL /\
      In (E_load_frame_format src (hw_pix_fmt h)) tr /\
      exists callbacks ret,
        0 <= ret /\
        In (E_avcodec_receive_frame (decoder_ctx h) src callbacks ret) tr) /\
  (forall ctx,
      In (E_avcodec_flush_buffers ctx) tr ->
      ctx = decoder_ctx h /\ receive_codes tr = [AVERROR_EOF]).
Proof.
  unfold trace.
  destruct (hvd_receive_frame h w) as [[[[f e] h1] tr] w'] eqn:Run.
  unfold hvd_receive_frame in Run; run_cases Run; cbv zeta; cbn [fst snd].
  all: tests_to_props.
  all: split.
  all: try (intros dst src flags r Hin; in_trace; fail).
  all: try (intros ctx Hin; in_trace; fail).
  all: try (intros ctx Hin; in_trace; split; [reflexivity | cbn; congruence]).
  all: intros dst src flags r Hin; in_trace.
  all: repeat match goal with
         | T : fw_load_frame_format _ _ = _ |- _ => rewrite T
         end.
  all: split; [reflexivity|]; split; [assumption|]; split; [assumption|].
  all: split; [find_event | do 2 eexists; split; [|find_event]; assumption].
Qed.

(** X18. When [av_frame_alloc] fails, [hvd_receive_frame] returns NULL
    with [HVD_ERROR] and has not called the decoder: no decoded frame is
    taken from it and lost. *)
Theorem hvd_receive_frame_alloc_failure (h : hvd) (w : W) :
  In (E_av_frame_alloc NULL) (trace (hvd_receive_frame h) w) ->
  result (hvd_receive_frame h) w
  = (NULL, HVD_ERROR, snd (result (hvd_receive_frame h) w)) /\
  (forall e, In e (trace (hvd_receive_frame h) w) -> decoder_call e = None).
Proof.
  unfold result, trace.
  destruct (hvd_receive_frame h w) as [[[[f e0] h1] tr] w'] eqn:Run.
  unfold hvd_receive_frame in Run; run_cases Run; cbn [fst snd].
  all: tests_to_props; intros Hin; in_trace; try congruence.
  all: split; [reflexivity|].
  all: intros e He;
    repeat (destruct He as [<- | He]; [reflexivity|]); destruct He.
Qed.


(** ** [hvd_init] *)

(** A run of [hvd_init] that returns a handle: the calls it made, in
    order, and the handle it built. *)
Lemma hvd_init_success (config : hvd_config) (w : W) (h : hvd) :
  result (hvd_init config) w = Some h ->
  exists hp ty decoder ctx err_dev dev ref callbacks err_open pkt,
    trace (hvd_init config) w =
      [ E_malloc hp;
        E_avcodec_register_all;
        E_av_log_set_level AV_LOG_VERBOSE;
        E_av_hwdevice_find_type_by_name (hardware config) ty;
        E_avcodec_find_decoder_by_name (codec config) decoder;
        E_avcodec_alloc_context3 decoder ctx;
        E_store_opaque ctx hp;
        E_store_get_format ctx;
        E_av_hwdevice_ctx_create ty (device config) err_dev dev;
        E_av_buffer_ref dev ref;
        E_store_hw_device_ctx ctx ref;
        E_avcodec_open2 ctx decoder callbacks err_open;
        E_av_init_packet AVPacket.zero pkt ] /\
    h = {| hw_device_ctx := dev;
           hw_pix_fmt := hvd_find_pixel_fmt_by_hw_type ty;
           decoder_ctx := ctx;
           sw_frame := NULL;
           hw_frame := NULL;
           av_packet := {| AVPacket.data := NULL; AVPacket.size := 0;
                           AVPacket.rest := AVPacket.rest pkt |} |} /\
    hp <> NULL /\ ty <> AV_HWDEVICE_TYPE_NONE /\
    hvd_find_pixel_fmt_by_hw_type ty <> AV_PIX_FMT_NONE /\
    decoder <> NULL /\ ctx <> NULL /\ 0 <= err_dev /\ ref <> NULL /\
    0 <= err_open.
Proof.
  unfold result, trace.
  destruct (hvd_init config w) as [[res tr] w'] eqn:Run.
  cbn; intros ->.
  unfold hvd_init, hvd_close_and_return_null, hvd_close in Run.
  run_cases Run.
  tests_to_props.
  do 10 eexists; split; [reflexivity|]; split; [reflexivity|].
  repeat split; auto.
  intros ->; discriminate.
Qed.

(* The run of [hvd_init config] from [w] against the answers of
   [init_calls config w] in the goal. *)
Ltac init_paths config w :=
  cbv zeta; unfold result, trace, world_after, init_calls, init_handle,
    setup_steps_succeed;
  cbn [ia_handle ia_type ia_decoder ia_ctx ia_device_err ia_device ia_ref
       ia_open_callbacks ia_open_err ia_packet ia_world fst snd];
  let Run := fresh "Run" in
  destruct (hvd_init config w) as [[? ?] ?] eqn:Run;
  unfold hvd_init, hvd_close_and_return_null, hvd_close in Run;
  run_cases Run;
  cbn [fst snd]; tests_to_props.

(** C2, as the code has it.  [hvd_init] returns a handle if and only if
    [malloc] gives it the struct and every setup step succeeds: hardware
    name found, pixel format known for the device type, codec name found,
    decoder context allocated, hardware device context created, reference
    to it taken, codec context opened.  The handle then holds what the
    framework answered, and the run ends in the world [av_init_packet]
    leaves.  When [malloc] or a step fails the result is NULL. *)
Theorem hvd_init_handle_iff_malloc_and_setup_succeed (config : hvd_config)
    (w : W) :
  let a := init_calls config w in
  (result (hvd_init config) w <> None <->
   ia_handle a <> NULL /\ setup_steps_succeed a) /\
  (ia_handle a <> NULL -> setup_steps_succeed a ->
   result (hvd_init config) w = Some (init_handle a) /\
   world_after (hvd_init config) w = ia_world a) /\
  (ia_handle a = NULL \/ ~ setup_steps_succeed a ->
   result (hvd_init config) w = None).
Proof.
  init_paths config w.
  all: repeat match goal with
         | |- _ /\ _ => split
         | |- _ <-> _ => split
         | |- _ -> _ => intro
         | H : _ /\ _ |- _ => destruct H
         end.
  all: try reflexivity; try congruence; try lia; auto.
  all: try discriminate.
  all: repeat match goal with
         | T : is_type_none ?a = _ |- _ =>
             first [ is_var a; destruct a; cbn in T; try discriminate T;
                     clear T
                   | cbn in T; discriminate T ]
         end;
    try congruence; try discriminate.
  all: match goal with H : _ \/ _ |- _ => destruct H as [H | H] end;
    [congruence|].
  all: exfalso; apply H; repeat split; auto; discriminate.
Qed.

(** The table of [hvd_find_pixel_fmt_by_hw_type] has no entry outside the
    listed device types. *)
Lemma unlisted_type_has_no_pixel_format (type : AVHWDeviceType) :
  listed_type type = false ->
  hvd_find_pixel_fmt_by_hw_type type = AV_PIX_FMT_NONE.
Proof. destruct type; cbn; intros H; try discriminate H; reflexivity. Qed.

(** The handle of a successful [hvd_init] holds the table entry of the
    device type the hardware name resolved to. *)
Lemma init_yields_table_entry (config : hvd_config) (w : W)
    (ty : AVHWDeviceType) (h : hvd) :
  init_yields F config w ty h ->
  hw_pix_fmt h = hvd_find_pixel_fmt_by_hw_type ty /\
  hvd_find_pixel_fmt_by_hw_type ty <> AV_PIX_FMT_NONE.
Proof.
  intros [Res Hin].
  destruct (hvd_init_success _ _ _ Res)
    as (hp & ty' & decoder & ctx & err_dev & dev & ref & cbs & err_open
        & pkt & Htr & Hh & _ & _ & Hfmt & _).
  rewrite Htr in Hin. in_trace. cbn. auto.
Qed.

(** C7. [hvd_find_pixel_fmt_by_hw_type] sends VAAPI, DXVA2, D3D11VA, VDPAU
    and VIDEOTOOLBOX to their pixel formats and every other device type to
    [AV_PIX_FMT_NONE]; and [hvd_init] returns NULL when the hardware name
    resolves to a device type outside these five. *)
Theorem hvd_find_pixel_fmt_by_hw_type_table :
  hvd_find_pixel_fmt_by_hw_type AV_HWDEVICE_TYPE_VAAPI = AV_PIX_FMT_VAAPI /\
  hvd_find_pixel_fmt_by_hw_type AV_HWDEVICE_TYPE_DXVA2
    = AV_PIX_FMT_DXVA2_VLD /\
  hvd_find_pixel_fmt_by_hw_type AV_HWDEVICE_TYPE_D3D11VA = AV_PIX_FMT_D3D11 /\
  hvd_find_pixel_fmt_by_hw_type AV_HWDEVICE_TYPE_VDPAU = AV_PIX_FMT_VDPAU /\
  hvd_find_pixel_fmt_by_hw_type AV_HWDEVICE_TYPE_VIDEOTOOLBOX
    = AV_PIX_FMT_VIDEOTOOLBOX /\
  (forall type,
      type <> AV_HWDEVICE_TYPE_VAAPI -> type <> AV_HWDEVICE_TYPE_DXVA2 ->
      type <> AV_HWDEVICE_TYPE_D3D11VA -> type <> AV_HWDEVICE_TYPE_VDPAU ->
      type <> AV_HWDEVICE_TYPE_VIDEOTOOLBOX ->
      hvd_find_pixel_fmt_by_hw_type type = AV_PIX_FMT_NONE) /\
  (forall (config : hvd_config) (w : W) (type : AVHWDeviceType),
      In (E_av_hwdevice_find_type_by_name (hardware config) type)
         (trace (hvd_init config) w) ->
      listed_type type = false ->
      result (hvd_init config) w = None).
Proof.
  repeat split; try reflexivity.
  - intros type H1 H2 H3 H4 H5.
    destruct type; try reflexivity; congruence.
  - intros config w type Hin Hout.
    destruct (result (hvd_init config) w) as [h|] eqn:Res; [|reflexivity].
    exfalso.
    destruct (init_yields_table_entry config w type h (conj Res Hin))
      as [_ Hfmt].
    apply Hfmt, unlisted_type_has_no_pixel_format, Hout.
Qed.

(** C6, as the code has it.  The pixel format of the decoder is the entry
    of the wrapper's own table [hvd_find_pixel_fmt_by_hw_type] for the
    device type; the framework resolves the hardware name to the device
    type and has no say in the format: under every framework and from
    every world a successful [hvd_init] stores that entry. *)
Theorem hvd_init_pixel_format_from_own_table (config : hvd_config) (w : W)
    (ty : AVHWDeviceType) (h : hvd) :
  init_yields F config w ty h ->
  hw_pix_fmt h = hvd_find_pixel_fmt_by_hw_type ty.
Proof. intros H. apply (init_yields_table_entry _ _ _ _ H). Qed.

(** ** [hvd_get_hw_pix_format] *)

Lemma hvd_get_hw_pix_format_loop_found (h : hvd)
    (before after : list AVPixelFormat) :
  ~ In (-1) before -> ~ In (hw_pix_fmt h) before -> hw_pix_fmt h <> -1 ->
  hvd_get_hw_pix_format_loop h (before ++ hw_pix_fmt h :: after)
  = Some (Some (hw_pix_fmt h)).
Proof.
  intros Hterm Hfirst Hne.
  induction before as [|x before IH]; cbn.
  - destruct (hw_pix_fmt h =? -1) eqn:E; [apply Z.eqb_eq in E; contradiction|].
    now rewrite Z.eqb_refl.
  - cbn in Hterm, Hfirst.
    destruct (x =? -1) eqn:E1; [apply Z.eqb_eq in E1; tauto|].
    destruct (x =? hw_pix_fmt h) eqn:E2; [apply Z.eqb_eq in E2; tauto|].
    apply IH; tauto.
Qed.

Lemma hvd_get_hw_pix_format_loop_not_found (h : hvd)
    (fmts after : list AVPixelFormat) :
  ~ In (-1) fmts -> ~ In (hw_pix_fmt h) fmts ->
  hvd_get_hw_pix_format_loop h (fmts ++ -1 :: after) = Some None.
Proof.
  intros Hterm Hnot.
  induction fmts as [|x fmts IH]; cbn.
  - reflexivity.
  - cbn in Hterm, Hnot.
    destruct (x =? -1) eqn:E1; [apply Z.eqb_eq in E1; tauto|].
    destruct (x =? hw_pix_fmt h) eqn:E2; [apply Z.eqb_eq in E2; tauto|].
    apply IH; tauto.
Qed.

(** The first occurrence of [x] in a list that holds it. *)
Lemma first_occurrence (x : Z) (l : list Z) :
  In x l ->
  exists before after, l = before ++ x :: after /\ ~ In x before.
Proof.
  induction l as [|y l IH]; intros Hin; [destruct Hin|].
  destruct (Z.eq_dec y x) as [->|Hne].
  - exists [], l. split; [reflexivity | intros []].
  - destruct Hin as [Heq | Hin]; [contradiction|].
    destruct (IH Hin) as (before & after & -> & Hfirst).
    exists (y :: before), after. split; [reflexivity|].
    intros [Heq | Hin']; [contradiction | exact (Hfirst Hin')].
Qed.

(** C8. On a list [fmts] of pixel formats followed by the terminator [-1]
    ([AV_PIX_FMT_NONE]), [hvd_get_hw_pix_format] returns the handle's
    [hw_pix_fmt] when it occurs in [fmts] and [AV_PIX_FMT_NONE] when it
    does not; when it occurs, the value returned is the member at its
    first occurrence, where the scan stops. *)
Theorem hvd_get_hw_pix_format_spec (h : hvd)
    (fmts after : list AVPixelFormat) (w : W) :
  ~ In (-1) fmts ->
  let r := result (hvd_get_hw_pix_format h (fmts ++ -1 :: after)) w in
  (In (hw_pix_fmt h) fmts ->
   r = Some (hw_pix_fmt h) /\
   exists i x,
     nth_error fmts i = Some x /\ r = Some x /\
     forall j, (j < i)%nat -> nth_error fmts j <> Some (hw_pix_fmt h)) /\
  (~ In (hw_pix_fmt h) fmts -> r = Some AV_PIX_FMT_NONE).
Proof.
  intros Hterm r; subst r; unfold result, hvd_get_hw_pix_format; split.
  - intros Hin.
    assert (Hne : hw_pix_fmt h <> -1) by (intros E; rewrite E in Hin; tauto).
    destruct (first_occurrence _ _ Hin) as (before & rest & -> & Hfirst).
    rewrite <- app_assoc; cbn [app].
    rewrite hvd_get_hw_pix_format_loop_found; auto.
    + cbn. split; [reflexivity|].
      exists (List.length before), (hw_pix_fmt h). repeat split.
      * rewrite nth_error_app2 by lia. now rewrite Nat.sub_diag.
      * intros j Hj Hnth. apply Hfirst.
        rewrite nth_error_app1 in Hnth by lia.
        eapply nth_error_In; eauto.
    + intros Hb; apply Hterm, in_or_app; auto.
  - intros Hnot.
    rewrite hvd_get_hw_pix_format_loop_not_found; auto.
Qed.


(** ** More on [hvd_init] *)


(** X3. The line [hvd_init] itself writes names the step that failed. *)
Theorem hvd_init_diagnostic_names_failed_step (config : hvd_config) (w : W) :
  let tr := trace (hvd_init config) w in
  let lines := fprintf_formats tr in
  (In (E_malloc NULL) tr <->
   lines = ["hvd: not enough memory for hvd\n"]) /\
  (In (E_av_hwdevice_find_type_by_name (hardware config)
         AV_HWDEVICE_TYPE_NONE) tr <->
   lines = ["hvd: cannot find hardware decoder %s\n"]) /\
  ((exists ty,
       In (E_av_hwdevice_find_type_by_name (hardware config) ty) tr /\
       ty <> AV_HWDEVICE_TYPE_NONE /\
       hvd_find_pixel_fmt_by_hw_type ty = AV_PIX_FMT_NONE) <->
   lines = ["hvd: unable to find pixel format for %s\n"]) /\
  (In (E_avcodec_find_decoder_by_name (codec config) NULL) tr <->
   lines = ["hvd: cannot find decoder %s\n"]) /\
  ((exists decoder, In (E_avcodec_alloc_context3 decoder NULL) tr) <->
   lines = ["hvd: failed to alloc decoder context, no memory?\n"]) /\
  ((exists ty err dev,
       In (E_av_hwdevice_ctx_create ty (device config) err dev) tr /\
       err < 0) <->
   lines = ["hvd: failed to create %s device.\n"]) /\
  ((exists dev, In (E_av_buffer_ref dev NULL) tr) <->
   lines = ["hvd: unable to reference hw_device_ctx.\n"]) /\
  ((exists ctx decoder callbacks err,
       In (E_avcodec_open2 ctx decoder callbacks err) tr /\ err < 0) <->
   lines = ["hvd: failed to initialize decoder context for %s\n"]).
Proof.
  unfold result, trace.
  destruct (hvd_init config w) as [[res tr] w'] eqn:Run.
  unfold hvd_init, hvd_close_and_return_null, hvd_close in Run.
  run_cases Run; cbv zeta; cbn [fst snd fprintf_formats flat_map app].
  all: tests_to_props.
  all: repeat match goal with |- _ /\ _ => split end.
  all: split; intros H;
    repeat match goal with
           | H : exists _, _ |- _ => destruct H
           | H : _ /\ _ |- _ => destruct H
           end.
  all: try discriminate; try reflexivity.
  all: in_trace; try congruence; try lia.
  all: repeat match goal with
         | T : is_type_none ?a = _ |- _ =>
             first [ is_var a; destruct a; cbn in T; try discriminate T;
                     clear T
                   | cbn in T; discriminate T ]
         | T : ?x = 0 |- _ => is_var x; subst x
         end;
    try congruence.
  all: repeat eexists.
  all: try find_event.
  all: auto; try lia; try discriminate.
Qed.



(** X5. [hvd_init] creates a hardware device context only for the device
    type the configured name resolved to, with the configured device, and
    only after that type got a pixel format from the table, the decoder
    was found and its context allocated. *)
Theorem hvd_init_creates_device_after_validation (config : hvd_config)
    (w : W) (ty : AVHWDeviceType) (dev : option string) (err : Z)
    (device_ctx : ptr) :
  In (E_av_hwdevice_ctx_create ty dev err device_ctx)
     (trace (hvd_init config) w) ->
  dev = device config /\
  In (E_av_hwdevice_find_type_by_name (hardware config) ty)
     (trace (hvd_init config) w) /\
  listed_type ty = true /\
  hvd_find_pixel_fmt_by_hw_type ty <> AV_PIX_FMT_NONE /\
  exists decoder ctx,
    decoder <> NULL /\ ctx <> NULL /\
    In (E_avcodec_find_decoder_by_name (codec config) decoder)
       (trace (hvd_init config) w) /\
    In (E_avcodec_alloc_context3 decoder ctx) (trace (hvd_init config) w).
Proof.
  unfold trace.
  destruct (hvd_init config w) as [[res tr] w'] eqn:Run.
  unfold hvd_init, hvd_close_and_return_null, hvd_close in Run.
  run_cases Run; cbn [fst snd]; intros Hin; in_trace.
  all: tests_to_props.
  all: split; [reflexivity|]; split; [find_event|].
  all: split;
    [ destruct (listed_type ty) eqn:Hl; [reflexivity|];
      apply unlisted_type_has_no_pixel_format in Hl; contradiction |].
  all: split; [assumption|].
  all: do 2 eexists; split; [|split; [|split; find_event]]; assumption.
Qed.

(** X6. [hvd_init] switches FFmpeg's log level, which is global, to
    [AV_LOG_VERBOSE] in every run in which [malloc] gave it memory, also
    when it then fails; it never sets another level. *)
Theorem hvd_init_sets_log_level (config : hvd_config) (w : W) :
  (forall level,
      In (E_av_log_set_level level) (trace (hvd_init config) w) ->
      level = AV_LOG_VERBOSE) /\
  (In (E_av_log_set_level AV_LOG_VERBOSE) (trace (hvd_init config) w) <->
   ~ In (E_malloc NULL) (trace (hvd_init config) w)).
Proof.
  unfold trace.
  destruct (hvd_init config w) as [[res tr] w'] eqn:Run.
  unfold hvd_init, hvd_close_and_return_null, hvd_close in Run.
  run_cases Run; cbn [fst snd].
  all: tests_to_props.
  all: split; [intros level Hin; in_trace; reflexivity|].
  all: split; intros H.
  all: try (intros Hin; in_trace; congruence).
  all: try find_event.
  all: try (in_trace; fail).
  all: exfalso; apply H; subst; find_event.
Qed.

(** X7. A handle returned by [hvd_init] holds no frames and an empty
    packet, a non-NULL decoder context, and as hardware pixel format one of
    the five formats of the table, never [AV_PIX_FMT_NONE]. *)
Theorem hvd_init_handle_state (config : hvd_config) (w : W) (h : hvd) :
  result (hvd_init config) w = Some h ->
  sw_frame h = NULL /\ hw_frame h = NULL /\
  AVPacket.data (av_packet h) = NULL /\ AVPacket.size (av_packet h) = 0 /\
  decoder_ctx h <> NULL /\
  hw_pix_fmt h <> AV_PIX_FMT_NONE /\
  In (hw_pix_fmt h)
     [AV_PIX_FMT_VAAPI; AV_PIX_FMT_DXVA2_VLD; AV_PIX_FMT_D3D11;
      AV_PIX_FMT_VDPAU; AV_PIX_FMT_VIDEOTOOLBOX].
Proof.
  intros Res.
  destruct (hvd_init_success _ _ _ Res)
    as (hp & ty & decoder & ctx & err_dev & dev & ref & cbs & err_open
        & pkt & _ & -> & _ & _ & Hfmt & _ & Hctx & _).
  cbn [sw_frame hw_frame av_packet AVPacket.data AVPacket.size decoder_ctx
       hw_pix_fmt].
  repeat split; auto.
  destruct ty; cbn in *; auto 6; contradiction.
Qed.


Lemma sent_packets_app (t1 t2 : list event) :
  sent_packets (t1 ++ t2) = sent_packets t1 ++ sent_packets t2.
Proof. apply flat_map_app. Qed.

Lemma allocated_frames_app (t1 t2 : list event) :
  allocated_frames (t1 ++ t2) = allocated_frames t1 ++ allocated_frames t2.
Proof. apply flat_map_app. Qed.

Lemma released_frames_app (t1 t2 : list event) :
  released_frames (t1 ++ t2) = released_frames t1 ++ released_frames t2.
Proof. apply flat_map_app. Qed.

Lemma allocated_contexts_app (t1 t2 : list event) :
  allocated_contexts (t1 ++ t2)
  = allocated_contexts t1 ++ allocated_contexts t2.
Proof. apply flat_map_app. Qed.

Lemma released_contexts_app (t1 t2 : list event) :
  released_contexts (t1 ++ t2)
  = released_contexts t1 ++ released_contexts t2.
Proof. apply flat_map_app. Qed.

Lemma created_devices_app (t1 t2 : list event) :
  created_devices (t1 ++ t2) = created_devices t1 ++ created_devices t2.
Proof. apply flat_map_app. Qed.

Lemma released_devices_app (t1 t2 : list event) :
  released_devices (t1 ++ t2) = released_devices t1 ++ released_devices t2.
Proof. apply flat_map_app. Qed.

(** ** Calls on a closed handle *)

(** X14. Nothing guards a handle that was closed: [hvd_send_packet] after
    [hvd_close] still calls [avcodec_send_packet], with a NULL decoder
    context, and every decoder call of [hvd_receive_frame] after
    [hvd_close] has a NULL context as well. *)
Theorem calls_after_close_use_null_context (h : hvd) (w w' : W)
    (packet : option hvd_packet) :
  let closed := result (hvd_close h) w in
  (exists pkt callbacks err,
      In (E_avcodec_send_packet NULL pkt callbacks err)
         (trace (hvd_send_packet closed packet) w')) /\
  (forall e ctx,
      In e (trace (hvd_receive_frame closed) w') ->
      decoder_call e = Some ctx -> ctx = NULL).
Proof.
  cbv zeta.
  destruct (hvd_close_run h w) as [_ ->].
  split.
  - unfold trace. rewrite hvd_send_packet_run. cbv zeta. cbn [fst snd].
    do 3 eexists. left. reflexivity.
  - unfold trace.
    destruct (hvd_receive_frame _ w') as [[[[f e0] h1] tr] w1] eqn:Run.
    unfold hvd_receive_frame in Run; run_cases Run; cbn [fst snd].
    all: intros e ctx Hin Hcall;
      repeat (destruct Hin as [<- | Hin];
              [cbn in Hcall; try discriminate Hcall;
               inversion Hcall; reflexivity|]);
      destruct Hin.
Qed.

(** ** More on [hvd_get_hw_pix_format] *)

Lemma hvd_get_hw_pix_format_loop_cases (h : hvd) (p : list AVPixelFormat) :
  match hvd_get_hw_pix_format_loop h p with
  | Some (Some x) => x = hw_pix_fmt h /\ In x p /\ x <> -1
  | Some None => In (-1) p
  | None => ~ In (-1) p /\ ~ In (hw_pix_fmt h) p
  end.
Proof.
  induction p as [|x p IH]; cbn.
  - split; intros [].
  - destruct (x =? -1) eqn:E1.
    + apply Z.eqb_eq in E1. left. exact E1.
    + apply Z.eqb_neq in E1.
      destruct (x =? hw_pix_fmt h) eqn:E2.
      * apply Z.eqb_eq in E2. repeat split; auto.
      * apply Z.eqb_neq in E2.
        destruct (hvd_get_hw_pix_format_loop h p) as [[y|]|].
        -- destruct IH as (-> & Hin & Hne). repeat split; auto.
        -- right. exact IH.
        -- destruct IH as [H1 H2].
           split; intros [H | H]; try contradiction; congruence.
Qed.

(** X15. Whatever list the framework offers, [hvd_get_hw_pix_format]
    answers with the handle's hardware pixel format, taken from the list,
    or with [AV_PIX_FMT_NONE], never with another member of the list; it
    writes to [stderr] exactly when it stopped at the terminator; and on an
    array that holds neither the terminator nor the hardware format the
    scan runs off the array. *)
Theorem hvd_get_hw_pix_format_answers (h : hvd)
    (pix_fmts : list AVPixelFormat) (w : W) :
  let r := result (hvd_get_hw_pix_format h pix_fmts) w in
  let lines := stderr_lines (trace (hvd_get_hw_pix_format h pix_fmts) w) in
  (forall x, r = Some x ->
             x = hw_pix_fmt h /\ In x pix_fmts /\ lines = [] \/
             x = AV_PIX_FMT_NONE /\ In (-1) pix_fmts /\
             lines = ["hvd: failed to get HW surface format.\n"]) /\
  (r = None <-> ~ In (-1) pix_fmts /\ ~ In (hw_pix_fmt h) pix_fmts).
Proof.
  cbv zeta. unfold result, trace, hvd_get_hw_pix_format.
  pose proof (hvd_get_hw_pix_format_loop_cases h pix_fmts) as Hloop.
  destruct (hvd_get_hw_pix_format_loop h pix_fmts) as [[y|]|]; cbn.
  - destruct Hloop as (-> & Hin & Hne). split.
    + intros x Hx; inversion Hx; subst. left. auto.
    + split; [discriminate | intros [_ Hnot]; contradiction].
  - split.
    + intros x Hx; inversion Hx; subst. right. auto.
    + split; [discriminate | intros [Hnot _]; contradiction].
  - split; [discriminate | split; auto].
Qed.

(** ** Sequences of calls on one handle *)

(** One user call: what it keeps of the handle, which context its decoder
    calls name, and how the frames it allocates and releases balance with
    the frames the handle holds before and after. *)
Lemma hvd_send_packet_step (h : hvd) (packet : option hvd_packet) (w : W) :
  let h' := snd (result (hvd_send_packet h packet) w) in
  let tr := trace (hvd_send_packet h packet) w in
  hw_device_ctx h' = hw_device_ctx h /\
  hw_pix_fmt h' = hw_pix_fmt h /\
  decoder_ctx h' = decoder_ctx h /\
  AVPacket.rest (av_packet h') = AVPacket.rest (av_packet h) /\
  sw_frame h' = sw_frame h /\ hw_frame h' = hw_frame h /\
  (forall e ctx, In e tr -> decoder_call e = Some ctx ->
                 ctx = decoder_ctx h) /\
  Forall (fun pkt => AVPacket.rest pkt = AVPacket.rest (av_packet h))
         (sent_packets tr) /\
  allocated_frames tr = [] /\ released_frames tr = [] /\
  allocated_contexts tr = [] /\ released_contexts tr = [] /\
  created_devices tr = [] /\ released_devices tr = [].
Proof.
  unfold result, trace.
  destruct (hvd_send_packet h packet w) as [[[r h'] tr] w'] eqn:Run.
  unfold hvd_send_packet in Run; run_cases Run; cbv zeta; cbn [fst snd].
  all: destruct packet; cbn.
  all: repeat split; try reflexivity.
  all: try (repeat constructor; fail).
  all: intros e ctx Hin Hcall;
    repeat (destruct Hin as [<- | Hin];
            [cbn in Hcall; try discriminate Hcall;
             inversion Hcall; reflexivity|]);
    destruct Hin.
Qed.

Lemma hvd_receive_frame_step (h : hvd) (w : W) :
  let h' := snd (result (hvd_receive_frame h) w) in
  let tr := trace (hvd_receive_frame h) w in
  hw_device_ctx h' = hw_device_ctx h /\
  hw_pix_fmt h' = hw_pix_fmt h /\
  decoder_ctx h' = decoder_ctx h /\
  av_packet h' = av_packet h /\
  (forall e ctx, In e tr -> decoder_call e = Some ctx ->
                 ctx = decoder_ctx h) /\
  sent_packets tr = [] /\
  allocated_contexts tr = [] /\ released_contexts tr = [] /\
  created_devices tr = [] /\ released_devices tr = [].
Proof.
  unfold result, trace.
  destruct (hvd_receive_frame h w) as [[[[f e0] h1] tr] w'] eqn:Run.
  unfold hvd_receive_frame in Run; run_cases Run; cbv zeta; cbn [fst snd].
  all: cbn.
  all: repeat split; try reflexivity.
  all: intros e ctx Hin Hcall;
    repeat (destruct Hin as [<- | Hin];
            [cbn in Hcall; try discriminate Hcall;
             inversion Hcall; reflexivity|]);
    destruct Hin.
Qed.

Lemma hvd_send_packet_sends (h : hvd) (packet : option hvd_packet) (w : W) :
  sent_packets (trace (hvd_send_packet h packet) w)
  = [forwarded (AVPacket.rest (av_packet h)) packet].
Proof.
  unfold trace.
  destruct (hvd_send_packet h packet w) as [[[r h'] tr] w'] eqn:Run.
  unfold hvd_send_packet in Run; run_cases Run; cbn [fst snd].
  all: destruct packet; reflexivity.
Qed.

Lemma session_keeps_contexts (calls : list user_call) (h : hvd) (w : W) :
  hw_device_ctx (result (session h calls) w) = hw_device_ctx h /\
  decoder_ctx (result (session h calls) w) = decoder_ctx h.
Proof.
  revert h w. induction calls as [|c calls IH]; intros h w.
  - split; reflexivity.
  - destruct c as [packet|]; cbn [session]; rewrite result_bind.
    + pose proof (hvd_send_packet_step h packet w) as Hstep.
      cbv zeta in Hstep. destruct Hstep as (Hd & _ & Hc & _).
      destruct (IH (snd (result (hvd_send_packet h packet) w))
                   (world_after (hvd_send_packet h packet) w)) as [Hd' Hc'].
      split; congruence.
    + pose proof (hvd_receive_frame_step h w) as Hstep.
      cbv zeta in Hstep. destruct Hstep as (Hd & _ & Hc & _).
      destruct (IH (snd (result (hvd_receive_frame h) w))
                   (world_after (hvd_receive_frame h) w)) as [Hd' Hc'].
      split; congruence.
Qed.

Lemma session_snoc_world (calls : list user_call)
    (packet : option hvd_packet) (h : hvd) (w : W) :
  world_after (session h (calls ++ [call_send_packet packet])) w
  = world_after (hvd_send_packet (result (session h calls) w) packet)
                (world_after (session h calls) w).
Proof.
  revert h w. induction calls as [|c calls IH]; intros h w.
  - cbn [app session]. rewrite world_after_bind. reflexivity.
  - destruct c as [p|]; cbn [app session];
      rewrite world_after_bind, result_bind, (world_after_bind _ _ w);
      apply IH.
Qed.

(** X16. Through any sequence of [hvd_send_packet] and
    [hvd_receive_frame] calls the handle keeps its device context, pixel
    format and decoder context; every call into the decoder names that one
    decoder context; and the framework is handed exactly the caller's
    packets, in the order of the calls, each with the packet members
    [av_init_packet] left in the handle: an [hvd_send_packet] after any
    such sequence ends in the world [avcodec_send_packet] leaves when
    called, in the world the sequence left, on the first handle's decoder
    context with the caller's packet. *)
Theorem session_keeps_decoder (calls : list user_call) (h : hvd) (w : W) :
  let h' := result (session h calls) w in
  let tr := trace (session h calls) w in
  hw_device_ctx h' = hw_device_ctx h /\
  hw_pix_fmt h' = hw_pix_fmt h /\
  decoder_ctx h' = decoder_ctx h /\
  AVPacket.rest (av_packet h') = AVPacket.rest (av_packet h) /\
  (forall e ctx, In e tr -> decoder_call e = Some ctx ->
                 ctx = decoder_ctx h) /\
  sent_packets tr
  = map (forwarded (AVPacket.rest (av_packet h))) (packets_of calls) /\
  (forall packet : option hvd_packet,
      let w1 := world_after (session h calls) w in
      world_after (session h (calls ++ [call_send_packet packet])) w
      = snd (reenter (observe_get_format (hvd_get_hw_pix_format h) w1)
               (fw_avcodec_send_packet (decoder_ctx h)
                  (forwarded (AVPacket.rest (av_packet h)) packet) w1))).
Proof.
  cbv zeta.
  assert (Hinv :
    hw_device_ctx (result (session h calls) w) = hw_device_ctx h /\
    hw_pix_fmt (result (session h calls) w) = hw_pix_fmt h /\
    decoder_ctx (result (session h calls) w) = decoder_ctx h /\
    AVPacket.rest (av_packet (result (session h calls) w))
    = AVPacket.rest (av_packet h) /\
    (forall e ctx, In e (trace (session h calls) w) ->
                   decoder_call e = Some ctx -> ctx = decoder_ctx h) /\
    sent_packets (trace (session h calls) w)
    = map (forwarded (AVPacket.rest (av_packet h))) (packets_of calls)).
  { revert h w.
    induction calls as [|c calls IH]; intros h w.
    - cbn. repeat split; try reflexivity. intros e ctx [].
    - destruct c as [packet|]; cbn [session packets_of flat_map].
      + rewrite result_bind, trace_bind.
        pose proof (hvd_send_packet_step h packet w) as Hstep.
        cbv zeta in Hstep.
        destruct Hstep as (Hd & Hf & Hc & Hr & _ & _ & Hcalls & _).
        destruct (IH (snd (result (hvd_send_packet h packet) w))
                     (world_after (hvd_send_packet h packet) w))
          as (Hd' & Hf' & Hc' & Hr' & Hcalls' & Hsent').
        repeat split; try congruence.
        * intros e ctx Hin Hcall. apply in_app_or in Hin.
          destruct Hin as [Hin | Hin]; [eauto|].
          rewrite <- Hc. eauto.
        * rewrite sent_packets_app, hvd_send_packet_sends, Hsent', Hr.
          reflexivity.
      + rewrite result_bind, trace_bind.
        pose proof (hvd_receive_frame_step h w) as Hstep.
        cbv zeta in Hstep.
        destruct Hstep as (Hd & Hf & Hc & Hp & Hcalls & Hnone & _).
        destruct (IH (snd (result (hvd_receive_frame h) w))
                     (world_after (hvd_receive_frame h) w))
          as (Hd' & Hf' & Hc' & Hr' & Hcalls' & Hsent').
        repeat split; try congruence.
        * intros e ctx Hin Hcall. apply in_app_or in Hin.
          destruct Hin as [Hin | Hin]; [eauto|].
          rewrite <- Hc. eauto.
        * rewrite sent_packets_app, Hnone, Hsent', Hp. reflexivity. }
  destruct Hinv as (Hd & Hf & Hc & Hr & Hcalls & Hsent).
  repeat split; auto.
  intros packet. rewrite session_snoc_world.
  unfold world_after at 1. rewrite hvd_send_packet_run. cbv zeta.
  cbn [snd]. rewrite Hc, Hr.
  rewrite (reenter_same_format _ h) by exact Hf. reflexivity.
Qed.

(** ** From [hvd_init] to [hvd_close] *)

Ltac eq_dec_cases :=
  repeat match goal with
         | |- context [Z.eq_dec ?a ?b] => destruct (Z.eq_dec a b)
         | H : context [Z.eq_dec ?a ?b] |- _ => destruct (Z.eq_dec a b)
         end.

(** A session allocates and releases frames only; every frame it
    allocated is released or still held by the handle. *)
Lemma session_resources (calls : list user_call) (h : hvd) (w : W)
    (p : ptr) :
  p <> NULL ->
  let h' := result (session h calls) w in
  let tr := trace (session h calls) w in
  (count_occ Z.eq_dec (allocated_frames tr) p
   + count_occ Z.eq_dec [hw_frame h; sw_frame h] p
   = count_occ Z.eq_dec (released_frames tr) p
     + count_occ Z.eq_dec [hw_frame h'; sw_frame h'] p)%nat /\
  allocated_contexts tr = [] /\ released_contexts tr = [] /\
  created_devices tr = [] /\ released_devices tr = [].
Proof.
  intros Hp. cbv zeta. revert h w.
  induction calls as [|c calls IH]; intros h w.
  - cbn. repeat split; reflexivity.
  - destruct c as [packet|]; cbn [session].
    + rewrite result_bind, trace_bind.
      pose proof (hvd_send_packet_step h packet w) as Hstep.
      cbv zeta in Hstep.
      destruct Hstep as (_ & _ & _ & _ & Hsw & Hhw & _ & _
                         & Ha & Hr & Hac & Hrc & Hcd & Hrd).
      destruct (IH (snd (result (hvd_send_packet h packet) w))
                   (world_after (hvd_send_packet h packet) w))
        as (Hbal & Hac' & Hrc' & Hcd' & Hrd').
      rewrite allocated_frames_app, released_frames_app,
        allocated_contexts_app, released_contexts_app,
        created_devices_app, released_devices_app.
      rewrite Ha, Hr, Hac, Hrc, Hcd, Hrd, Hac', Hrc', Hcd', Hrd'.
      rewrite Hsw, Hhw in Hbal.
      repeat split; try reflexivity. exact Hbal.
    + rewrite result_bind, trace_bind.
      pose proof (hvd_receive_frame_step h w) as Hstep.
      cbv zeta in Hstep.
      destruct Hstep as (_ & _ & _ & _ & _ & _ & Hac & Hrc & Hcd & Hrd).
      pose proof (hvd_receive_frame_frames h w) as Hfr.
      cbv zeta in Hfr. destruct Hfr as (Hrel & Halloc & _ & _).
      destruct (IH (snd (result (hvd_receive_frame h) w))
                   (world_after (hvd_receive_frame h) w))
        as (Hbal & Hac' & Hrc' & Hcd' & Hrd').
      rewrite allocated_frames_app, released_frames_app,
        allocated_contexts_app, released_contexts_app,
        created_devices_app, released_devices_app.
      rewrite Hac, Hrc, Hcd, Hrd, Hac', Hrc', Hcd', Hrd', Hrel.
      repeat split; try reflexivity.
      rewrite !count_occ_app.
      destruct Halloc as [-> | (-> & Hhw & Hsw)].
      * unfold ptr in *. lia.
      * rewrite Hhw, Hsw in *. unfold NULL, ptr in *.
        cbn [count_occ] in *.
        destruct (Z.eq_dec 0 p) as [E0 | _]; [symmetry in E0; contradiction|].
        lia.
Qed.

(** What a run of [hvd_init] acquires and releases. *)
Lemma hvd_init_resources (config : hvd_config) (w : W) (p : ptr) :
  p <> NULL ->
  let tr := trace (hvd_init config) w in
  allocated_frames tr = [] /\
  count_occ Z.eq_dec (released_frames tr) p = 0%nat /\
  match result (hvd_init config) w with
  | Some h =>
      allocated_contexts tr = [decoder_ctx h] /\ released_contexts tr = [] /\
      created_devices tr = [hw_device_ctx h] /\ released_devices tr = [] /\
      hw_frame h = NULL /\ sw_frame h = NULL
  | None =>
      count_occ Z.eq_dec (allocated_contexts tr) p
      = count_occ Z.eq_dec (released_contexts tr) p /\
      count_occ Z.eq_dec (created_devices tr) p
      = count_occ Z.eq_dec (released_devices tr) p
  end.
Proof.
  intros Hp. unfold result, trace.
  destruct (hvd_init config w) as [[res tr] w'] eqn:Run.
  unfold hvd_init, hvd_close_and_return_null, hvd_close in Run.
  run_cases Run; cbv zeta; cbn -[Z.eq_dec].
  all: unfold NULL in *; eq_dec_cases; try congruence.
  all: repeat split; reflexivity.
Qed.

(** X17. From [hvd_init] through any sequence of calls to [hvd_close],
    also when [hvd_init] fails, the library hands every frame, every codec
    context and every hardware device context it obtained back to the
    framework exactly as often as it obtained it: nothing is leaked and
    nothing is released twice. *)
Theorem lifetime_releases_what_it_acquires (config : hvd_config)
    (calls : list user_call) (w : W) (p : ptr) :
  p <> NULL ->
  let tr := trace (lifetime config calls) w in
  count_occ Z.eq_dec (allocated_frames tr) p
  = count_occ Z.eq_dec (released_frames tr) p /\
  count_occ Z.eq_dec (allocated_contexts tr) p
  = count_occ Z.eq_dec (released_contexts tr) p /\
  count_occ Z.eq_dec (created_devices tr) p
  = count_occ Z.eq_dec (released_devices tr) p.
Proof.
  intros Hp. cbv zeta. unfold lifetime.
  rewrite trace_bind.
  pose proof (hvd_init_resources config w p Hp) as Hinit.
  cbv zeta in Hinit. destruct Hinit as (Ha & Hr & Hres).
  destruct (result (hvd_init config) w) as [h|].
  - destruct Hres as (Hac & Hrc & Hcd & Hrd & Hhw & Hsw).
    rewrite !trace_bind.
    set (w1 := world_after (hvd_init config) w).
    pose proof (session_resources calls h w1 p Hp) as Hs.
    cbv zeta in Hs. destruct Hs as (Hbal & Hac' & Hrc' & Hcd' & Hrd').
    pose proof (session_keeps_contexts calls h w1) as (Hdev & Hctx).
    set (h' := result (session h calls) w1) in *.
    destruct (hvd_close_run h' (world_after (session h calls) w1))
      as [Hcl _].
    rewrite Hcl.
    rewrite !allocated_frames_app, !released_frames_app,
      !allocated_contexts_app, !released_contexts_app,
      !created_devices_app, !released_devices_app.
    rewrite Ha, Hac, Hrc, Hcd, Hrd, Hac', Hrc', Hcd', Hrd'.
    rewrite !count_occ_app, !trace_ret.
    rewrite Hhw, Hsw in Hbal. unfold NULL, ptr in *.
    rewrite Hr.
    cbn -[Z.eq_dec] in *. rewrite Hdev, Hctx.
    destruct (Z.eq_dec 0 p) as [E0 | _]; [symmetry in E0; contradiction|].
    eq_dec_cases; repeat split; lia.
  - destruct Hres as (Hctx & Hdev).
    rewrite trace_ret, !app_nil_r, Ha.
    unfold ptr in *. rewrite Hr. auto.
Qed.

End Properties.

(** ** Concrete runs *)

Example hvd_init_on_vaapi_machine :
  result (sample_init vaapi_machine vaapi_h264) 0 = Some vaapi_handle.
Proof. reflexivity. Qed.

Example hvd_init_cuda_is_unlisted :
  result (sample_init vaapi_machine cuda_h264) 0 = None /\
  In (E_av_hwdevice_find_type_by_name "cuda" (AV_HWDEVICE_TYPE_other 2))
     (trace (sample_init vaapi_machine cuda_h264) 0).
Proof. split; [reflexivity | cbn; auto 6]. Qed.

Example hvd_init_without_memory :
  sample_init (with_malloc vaapi_machine NULL) vaapi_h264 0
  = (None,
     [E_malloc NULL; E_fprintf_stderr "hvd: not enough memory for hvd\n" []],
     0).
Proof. reflexivity. Qed.

Example hvd_receive_frame_software_frame :
  result (sample_receive_frame (with_frame_format vaapi_machine 0)
            vaapi_handle) 0
  = (NULL, -1, vaapi_handle_with_frames).
Proof. reflexivity. Qed.

(** ** Instances on the scripted framework *)

Lemma hvd_send_packet_return_code_witness :
  @AVERROR_EAGAIN sample_headers < 0 /\
  world_after (sample_send_packet (with_send_packet vaapi_machine (-11))
                 vaapi_handle None) 0 = 0 /\
  send_codes
    (trace (sample_send_packet (with_send_packet vaapi_machine (-11))
              vaapi_handle None) 0) = [-11] /\
  fst (result (sample_send_packet (with_send_packet vaapi_machine (-11))
                 vaapi_handle None) 0) = -11.
Proof.
  split; [reflexivity|].
  destruct (@hvd_send_packet_return_code Z
              (scripted (with_send_packet vaapi_machine (-11)))
              sample_headers sample_retval vaapi_handle None 0 eq_refl)
    as (Hworld & Hcodes & _ & Hagain & _).
  split; [exact Hworld|]. split; [exact Hcodes|].
  apply Hagain. reflexivity.
Defined.

Lemma hvd_receive_frame_returns_transferred_frame_witness :
  fst (fst (result (sample_receive_frame vaapi_machine vaapi_handle) 0))
  = 25088 /\
  world_after (sample_receive_frame vaapi_machine vaapi_handle) 0 = 2 /\
  trace (sample_receive_frame vaapi_machine vaapi_handle) 0 =
    [ E_av_frame_free NULL;
      E_av_frame_free NULL;
      E_av_frame_alloc 24576;
      E_av_frame_alloc 25088;
      E_avcodec_receive_frame 12288 24576 [] 0;
      E_load_frame_format 24576 46;
      E_av_hwframe_transfer_data 25088 24576 0 0 ] /\
  fst (fst (result (sample_receive_frame (with_frame_format vaapi_machine 0)
                      vaapi_handle) 0)) = NULL.
Proof.
  destruct (@hvd_receive_frame_returns_transferred_frame Z
              (scripted vaapi_machine) sample_headers sample_retval
              vaapi_handle 0) as (_ & Hyes & _).
  destruct Hyes as (Hframe & _ & _ & Hworld & Htrace).
  { repeat split; try discriminate. }
  destruct (@hvd_receive_frame_returns_transferred_frame Z
              (scripted (with_frame_format vaapi_machine 0)) sample_headers
              sample_retval vaapi_handle 0) as (_ & _ & Hno).
  destruct Hno as (Hnull & _); try discriminate.
  repeat split; assumption.
Defined.

Lemma hvd_receive_frame_error_witness :
  (@HVD_OK sample_retval <> @HVD_ERROR sample_retval /\
   @AVERROR_EAGAIN sample_headers < 0 /\
   @AVERROR_EOF sample_headers < 0) /\
  let run := sample_receive_frame
               (with_receive_frame vaapi_machine (-541478725))
               vaapi_handle in
  fst (fst (result run 0)) = NULL /\
  snd (fst (result run 0)) = 0 /\
  world_after run 0 = 2 /\
  In (E_avcodec_flush_buffers 12288) (trace run 0).
Proof.
  assert (H : @HVD_OK sample_retval <> @HVD_ERROR sample_retval /\
              @AVERROR_EAGAIN sample_headers < 0 /\
              @AVERROR_EOF sample_headers < 0)
    by (split; [discriminate | split; reflexivity]).
  split; [exact H|].
  destruct H as (Hdiff & Hagain & Heof).
  destruct (@hvd_receive_frame_error Z
              (scripted (with_receive_frame vaapi_machine (-541478725)))
              sample_headers sample_retval vaapi_handle 0 Hdiff Hagain Heof)
    as (_ & _ & Hiff & Hflush & _).
  cbv zeta.
  destruct Hiff as [_ Hback].
  destruct Hback as [Hnull Hok].
  { split; [split; discriminate | right; reflexivity]. }
  destruct Hflush as [Hworld Hin].
  { split; discriminate. }
  { reflexivity. }
  repeat split; assumption.
Defined.

(** C2, as the claim has it, does not hold: without memory for the struct
    [hvd_init] returns NULL on a machine on which every one of the seven
    setup steps succeeds. *)
Lemma hvd_init_null_though_setup_steps_succeed :
  ~ (result (sample_init (with_malloc vaapi_machine NULL) vaapi_h264) 0
     <> None <->
     setup_steps_succeed (L := sample_headers)
       (@init_calls Z (scripted (with_malloc vaapi_machine NULL))
          sample_headers vaapi_h264 0)).
Proof.
  intros [_ Hback]. apply Hback; [|reflexivity].
  repeat split; discriminate.
Qed.

Lemma hvd_init_handle_iff_malloc_and_setup_succeed_witness :
  ia_handle (@init_calls Z (scripted vaapi_machine) sample_headers
               vaapi_h264 0) <> NULL /\
  setup_steps_succeed (L := sample_headers)
    (@init_calls Z (scripted vaapi_machine) sample_headers vaapi_h264 0) /\
  result (sample_init vaapi_machine vaapi_h264) 0 = Some vaapi_handle /\
  world_after (sample_init vaapi_machine vaapi_h264) 0 = 0 /\
  result (sample_init (with_malloc vaapi_machine NULL) vaapi_h264) 0 = None.
Proof.
  assert (Hm : ia_handle (@init_calls Z (scripted vaapi_machine)
                            sample_headers vaapi_h264 0) <> NULL)
    by discriminate.
  assert (Hs : setup_steps_succeed (L := sample_headers)
                 (@init_calls Z (scripted vaapi_machine) sample_headers
                    vaapi_h264 0))
    by (repeat split; discriminate).
  split; [exact Hm|]. split; [exact Hs|].
  destruct (@hvd_init_handle_iff_malloc_and_setup_succeed Z
              (scripted vaapi_machine) sample_headers vaapi_h264 0)
    as (_ & Hyes & _).
  destruct (Hyes Hm Hs) as [Hres Hworld].
  split; [exact Hres|]. split; [exact Hworld|].
  destruct (@hvd_init_handle_iff_malloc_and_setup_succeed Z
              (scripted (with_malloc vaapi_machine NULL)) sample_headers
              vaapi_h264 0) as (_ & _ & Hno).
  apply Hno. left. reflexivity.
Defined.

Lemma hvd_send_packet_forwards_data_witness :
  sent_packets
    (trace (sample_send_packet vaapi_machine vaapi_handle
              (Some {| data := 65536; size := 1500 |})) 0)
  = [ {| AVPacket.data := 65536; AVPacket.size := 1500;
         AVPacket.rest := [-1; -1; 0; 0] |} ] /\
  world_after (sample_send_packet vaapi_machine vaapi_handle
                 (Some {| data := 65536; size := 1500 |})) 0 = 0 /\
  sent_packets (trace (sample_send_packet vaapi_machine vaapi_handle None) 0)
  = [ {| AVPacket.data := NULL; AVPacket.size := 0;
         AVPacket.rest := [-1; -1; 0; 0] |} ].
Proof.
  destruct (@hvd_send_packet_forwards_data Z (scripted vaapi_machine)
              sample_headers sample_retval vaapi_handle 0)
    as [Hsome Hnone].
  destruct (Hsome {| data := 65536; size := 1500 |}) as (Hw & Hp & _).
  split; [exact Hp|]. split; [exact Hw|].
  exact (proj1 (proj2 Hnone)).
Defined.

Lemma hvd_send_packet_frame_witness :
  let h' := snd (result (sample_send_packet
                           (with_send_packet vaapi_machine (-22))
                           vaapi_handle
                           (Some {| data := 65536; size := 1500 |})) 0) in
  hw_device_ctx h' = 16384 /\
  hw_pix_fmt h' = 46 /\
  decoder_ctx h' = 12288 /\
  sw_frame h' = NULL /\
  hw_frame h' = NULL /\
  AVPacket.rest (av_packet h') = [-1; -1; 0; 0] /\
  sent_packets
    (trace (sample_send_packet (with_send_packet vaapi_machine (-22))
              vaapi_handle (Some {| data := 65536; size := 1500 |})) 0)
  = [av_packet h'].
Proof.
  exact (@hvd_send_packet_frame Z
           (scripted (with_send_packet vaapi_machine (-22)))
           sample_headers sample_retval vaapi_handle
           (Some {| data := 65536; size := 1500 |}) 0).
Defined.

Lemma hvd_find_pixel_fmt_by_hw_type_table_witness :
  @hvd_find_pixel_fmt_by_hw_type sample_headers (AV_HWDEVICE_TYPE_other 2)
  = AV_PIX_FMT_NONE /\
  result (sample_init vaapi_machine cuda_h264) 0 = None.
Proof.
  destruct (@hvd_find_pixel_fmt_by_hw_type_table Z (scripted vaapi_machine)
              sample_headers)
    as (_ & _ & _ & _ & _ & Hother & Hinit).
  split.
  - apply Hother; discriminate.
  - apply (Hinit cuda_h264 0 (AV_HWDEVICE_TYPE_other 2));
      [cbn; auto 6 | reflexivity].
Defined.

Lemma hvd_init_pixel_format_from_own_table_witness :
  init_yields (L := sample_headers) (scripted vaapi_machine) vaapi_h264 0
    AV_HWDEVICE_TYPE_VAAPI vaapi_handle /\
  hw_pix_fmt vaapi_handle
  = @hvd_find_pixel_fmt_by_hw_type sample_headers AV_HWDEVICE_TYPE_VAAPI.
Proof.
  assert (H : init_yields (L := sample_headers) (scripted vaapi_machine)
                vaapi_h264 0 AV_HWDEVICE_TYPE_VAAPI vaapi_handle)
    by (split; [reflexivity | cbn; auto 6]).
  split; [exact H|].
  apply (@hvd_init_pixel_format_from_own_table Z (scripted vaapi_machine)
           sample_headers vaapi_h264 0 AV_HWDEVICE_TYPE_VAAPI vaapi_handle H).
Defined.

(** C6, as the claim has it, does not hold: the wrapper's table
    [hvd_find_pixel_fmt_by_hw_type] gives the pixel format of every handle
    [hvd_init] returns, under every framework. *)
Lemma pixel_format_not_chosen_by_framework :
  ~ @pixel_format_chosen_by_framework sample_headers.
Proof.
  intros Hclaim.
  destruct (Hclaim (@hvd_find_pixel_fmt_by_hw_type sample_headers))
    as (W & F & config & w & ty & h & Hinit & Hother).
  apply Hother.
  apply (@init_yields_table_entry W F sample_headers config w ty h Hinit).
Qed.

Lemma hvd_get_hw_pix_format_spec_witness :
  ~ In (-1) [0; 23; 46; 44] /\
  result (@hvd_get_hw_pix_format Z vaapi_handle
            ([0; 23; 46; 44] ++ -1 :: [46; 7])) 0 = Some 46 /\
  result (@hvd_get_hw_pix_format Z vaapi_handle
            ([0; 23] ++ -1 :: [46; 7])) 0 = Some AV_PIX_FMT_NONE.
Proof.
  assert (H1 : ~ In (-1) [0; 23; 46; 44])
    by (cbn; intros [H|[H|[H|[H|[]]]]]; discriminate H).
  assert (H2 : ~ In (-1) [0; 23])
    by (cbn; intros [H|[H|[]]]; discriminate H).
  split; [exact H1|]. split.
  - apply (@hvd_get_hw_pix_format_spec Z vaapi_handle [0; 23; 46; 44]
             [46; 7] 0 H1).
    cbn; auto.
  - apply (@hvd_get_hw_pix_format_spec Z vaapi_handle [0; 23] [46; 7] 0 H2).
    cbn; intros [H|[H|[]]]; discriminate H.
Defined.

(** ** Further instances on the scripted framework *)


Lemma hvd_init_creates_device_after_validation_witness :
  In (E_av_hwdevice_ctx_create AV_HWDEVICE_TYPE_VAAPI
        (Some "/dev/dri/renderD128") 0 16384)
     (trace (sample_init vaapi_machine vaapi_h264) 0) /\
  listed_type AV_HWDEVICE_TYPE_VAAPI = true /\
  @hvd_find_pixel_fmt_by_hw_type sample_headers AV_HWDEVICE_TYPE_VAAPI
  <> AV_PIX_FMT_NONE.
Proof.
  assert (H : In (E_av_hwdevice_ctx_create AV_HWDEVICE_TYPE_VAAPI
                    (Some "/dev/dri/renderD128") 0 16384)
                 (trace (sample_init vaapi_machine vaapi_h264) 0))
    by (do 8 right; left; reflexivity).
  split; [exact H|].
  destruct (@hvd_init_creates_device_after_validation Z
              (scripted vaapi_machine) sample_headers vaapi_h264 0
              AV_HWDEVICE_TYPE_VAAPI (Some "/dev/dri/renderD128") 0 16384 H)
    as (_ & _ & Hlisted & Hfmt & _).
  split; assumption.
Defined.

Lemma hvd_init_handle_state_witness :
  result (sample_init vaapi_machine vaapi_h264) 0 = Some vaapi_handle /\
  sw_frame vaapi_handle = NULL /\ hw_frame vaapi_handle = NULL /\
  AVPacket.data (av_packet vaapi_handle) = NULL /\
  AVPacket.size (av_packet vaapi_handle) = 0 /\
  decoder_ctx vaapi_handle <> NULL /\
  hw_pix_fmt vaapi_handle <> AV_PIX_FMT_NONE /\
  In (hw_pix_fmt vaapi_handle) [46; 53; 174; 109; 160].
Proof.
  split; [reflexivity|].
  exact (@hvd_init_handle_state Z (scripted vaapi_machine) sample_headers
           vaapi_h264 0 vaapi_handle eq_refl).
Defined.

Lemma hvd_receive_frame_result_released_by_next_call_witness :
  result (sample_receive_frame vaapi_machine vaapi_handle) 0
  = (25088, 0, vaapi_handle_with_frames) /\
  25088 <> NULL /\
  In (E_av_frame_free 25088)
     (trace (sample_receive_frame vaapi_machine vaapi_handle_with_frames) 2) /\
  In (E_av_frame_free 25088)
     (trace (@hvd_close Z (scripted vaapi_machine) vaapi_handle_with_frames)
        2).
Proof.
  split; [reflexivity|]. split; [discriminate|].
  apply (@hvd_receive_frame_result_released_by_next_call Z
           (scripted vaapi_machine) sample_headers sample_retval
           vaapi_handle 0 25088 0 vaapi_handle_with_frames);
    [reflexivity | discriminate].
Defined.


Lemma lifetime_releases_what_it_acquires_witness :
  let tr := trace (sample_lifetime vaapi_machine vaapi_h264
                     [call_send_packet (Some {| data := 65536; size := 1500 |});
                      call_receive_frame; call_receive_frame]) 0 in
  24576 <> NULL /\
  count_occ Z.eq_dec (allocated_frames tr) 24576
  = count_occ Z.eq_dec (released_frames tr) 24576 /\
  count_occ Z.eq_dec (allocated_contexts tr) 24576
  = count_occ Z.eq_dec (released_contexts tr) 24576 /\
  count_occ Z.eq_dec (created_devices tr) 24576
  = count_occ Z.eq_dec (released_devices tr) 24576.
Proof.
  split; [discriminate|].
  apply (@lifetime_releases_what_it_acquires Z (scripted vaapi_machine)
           sample_headers sample_retval vaapi_h264
           [call_send_packet (Some {| data := 65536; size := 1500 |});
            call_receive_frame; call_receive_frame] 0 24576).
  discriminate.
Defined.

Example lifetime_frame_released_once :
  let tr := trace (sample_lifetime vaapi_machine vaapi_h264
                     [call_receive_frame; call_receive_frame]) 0 in
  count_occ Z.eq_dec (allocated_frames tr) 25088 = 1%nat /\
  count_occ Z.eq_dec (released_frames tr) 25088 = 1%nat.
Proof. split; reflexivity. Qed.

Lemma hvd_receive_frame_alloc_failure_witness :
  let run := sample_receive_frame
               (with_frame_alloc vaapi_machine
                  (fun n => if n =? 0 then 24576 else NULL))
               vaapi_handle in
  In (E_av_frame_alloc NULL) (trace run 0) /\
  fst (result run 0) = (NULL, -1) /\
  receive_codes (trace run 0) = [].
Proof.
  cbv zeta.
  assert (H : In (E_av_frame_alloc NULL)
                 (trace (sample_receive_frame
                           (with_frame_alloc vaapi_machine
                              (fun n => if n =? 0 then 24576 else NULL))
                           vaapi_handle) 0))
    by (do 3 right; left; reflexivity).
  split; [exact H|].
  destruct (@hvd_receive_frame_alloc_failure Z
              (scripted (with_frame_alloc vaapi_machine
                           (fun n => if n =? 0 then 24576 else NULL)))
              sample_headers sample_retval vaapi_handle 0 H) as [Hres _].
  split; [|reflexivity].
  unfold sample_receive_frame. rewrite Hres. reflexivity.
Defined.

Example lifetime_failed_open_releases_context_and_device :
  let tr := trace (sample_lifetime (with_open2 vaapi_machine (-22))
                     vaapi_h264 [call_receive_frame]) 0 in
  result (sample_lifetime (with_open2 vaapi_machine (-22))
            vaapi_h264 [call_receive_frame]) 0 = false /\
  allocated_contexts tr = [12288] /\ released_contexts tr = [12288] /\
  created_devices tr = [16384] /\ released_devices tr = [16384] /\
  allocated_frames tr = [].
Proof. repeat split; reflexivity. Qed.


(** A decoder that offers software formats only while it takes a packet
    and then refuses it: the callback's line and the line of
    [hvd_send_packet] both reach [stderr]. *)
Example hvd_send_packet_two_lines :
  stderr_lines
    (trace (sample_send_packet
              (with_send_offers (with_send_packet vaapi_machine (-22))
                 [[0; 23]])
              vaapi_handle None) 0)
  = ["hvd: failed to get HW surface format.\n";
     "hvd: send_packet error %d\n"].
Proof. reflexivity. Qed.

Example hvd_send_packet_offers_recorded :
  trace (sample_send_packet vaapi_machine vaapi_handle None) 0
  = [ E_avcodec_send_packet 12288
        {| AVPacket.data := NULL; AVPacket.size := 0;
           AVPacket.rest := [-1; -1; 0; 0] |}
        [ {| gf_offered := [46; 0]; gf_answer := Some 46;
             gf_stderr := [] |} ]
        0 ].
Proof. reflexivity. Qed.

(** A decoder that offers software formats only when it is opened and then
    fails to open: [stderr] gets the callback's line and after it the one
    line of [hvd_init]. *)
Example hvd_init_two_lines :
  let run := sample_init
               (with_open2_offers (with_open2 vaapi_machine (-22)) [[0; 23]])
               vaapi_h264 in
  result run 0 = None /\
  stderr_lines (trace run 0)
  = ["hvd: failed to get HW surface format.\n";
     "hvd: failed to initialize decoder context for %s\n"] /\
  fprintf_formats (trace run 0)
  = ["hvd: failed to initialize decoder context for %s\n"].
Proof. repeat split; reflexivity. Qed.
